(** * S/MIME signature verification service

    A shallow embedding of [src/modules/smimeVerificationService.js] and of
    the constants of [src/config/constants.js] it reads, followed by the
    properties of the verdict pipeline.

    Conventions of the embedding.
    - JavaScript strings are [string]s of 8-bit code units (the service is
      fed binary strings), array buffers are lists of bytes.
    - Values whose dynamic type matters to the code ([null], [undefined],
      booleans, strings) are [JsVal]s and [===] is [strict_eq].
    - A [throw] is the [Throw] constructor of the [Exc] monad; a promise is
      described by the way it settles ([Promise]).
    - The third-party libraries (emailjs-mime-parser, asn1js, pkijs) are an
      interface, [Libraries]; the wall clock and the two entries of
      [smimeSpecificationConstants] that [constants.js] does not list are
      an interface too, [Ambient]. *)

From Stdlib Require Import ZArith String Ascii List Bool Lia.
From Stdlib.Strings Require Import Byte.
From stdpp Require Import base option list gmap strings.

Import ListNotations.
Local Open Scope string_scope.
Local Open Scope Z_scope.

(** ** JavaScript values and control effects *)

Inductive JsVal : Type :=
| JUndefined
| JNull
| JBool (b : bool)
| JNum (n : Z)
| JStr (s : string).

(** [a === b] on the values above. *)
Definition strict_eq (a b : JsVal) : bool :=
  match a, b with
  | JUndefined, JUndefined => true
  | JNull, JNull => true
  | JBool x, JBool y => Bool.eqb x y
  | JNum x, JNum y => Z.eqb x y
  | JStr x, JStr y => String.eqb x y
  | _, _ => false
  end.

(** [typeof v]. *)
Definition typeof (v : JsVal) : string :=
  match v with
  | JUndefined => "undefined"
  | JNull => "object"
  | JBool _ => "boolean"
  | JNum _ => "number"
  | JStr _ => "string"
  end.

Inductive JsError : Type :=
| TypeError (msg : string)
| LibraryError (msg : string).

Inductive Exc (A : Type) : Type :=
| Ret (a : A)
| Throw (e : JsError).
Arguments Ret {A} a.
Arguments Throw {A} e.

Definition exc_bind {A B : Type} (m : Exc A) (k : A -> Exc B) : Exc B :=
  match m with
  | Ret a => k a
  | Throw e => Throw e
  end.

Notation "x <- m ;; k" := (exc_bind m (fun x => k))
  (at level 100, m at next level, right associativity).

(** [a && b] where both sides may throw and only truthiness is observed. *)
Definition and_then (a b : Exc bool) : Exc bool :=
  x <- a ;; if x then b else Ret false.
Infix "&&&" := and_then (at level 40, left associativity).

(** How a promise settles. *)
Inductive Promise (A : Type) : Type :=
| Fulfilled (a : A)
| Rejected (e : JsError).
Arguments Fulfilled {A} a.
Arguments Rejected {A} e.

Definition ArrayBuffer : Type := list byte.

(** pvutils [stringToArrayBuffer]: one byte per code unit. *)
Definition stringToArrayBuffer (s : string) : ArrayBuffer := list_byte_of_string s.

(** [String.prototype.indexOf]: position of the first occurrence of [pat]
    as a substring of [s], or -1. *)
Definition String_indexOf (s pat : string) : Z :=
  match String.index 0 pat s with
  | Some n => Z.of_nat n
  | None => -1
  end.

(** [Array.prototype.indexOf] on an array of strings: position of the first
    element strictly equal to [x], or -1. *)
Fixpoint Array_indexOf_from (i : Z) (l : list string) (x : JsVal) : Z :=
  match l with
  | [] => -1
  | e :: rest => if strict_eq (JStr e) x then i else Array_indexOf_from (i + 1) rest x
  end.
Definition Array_indexOf (l : list string) (x : JsVal) : Z := Array_indexOf_from 0 l x.

(** ** Constants ([src/config/constants.js]) *)

Module smimeSpecificationConstants.
Definition signatureNodeContentTypeValues : list string :=
  ["application/x-pkcs7-signature"; "application/pkcs7-signature"].
Definition rootNodeContentTypeValue : string := "multipart/signed".
Definition rootNodeContentTypeProtocol : string := "application/pkcs7-signature".
Definition rootNodeContentTypeMessageIntegrityCheckAlgorithms : list string :=
  ["md5"; "sha-1"; "sha-224"; "sha-256"; "sha-384"; "sha-512"; "unknown"].
End smimeSpecificationConstants.

Inductive ResultCode : Type := VERIFICATION_OK | CANNOT_VERIFY | FRAUD_WARNING.

(** ** Data model *)

(** The result object handed to the caller. *)
Record Result : Type := mkResult {
  mailId : string;
  success : bool;
  code : ResultCode;
  message : string;
  signer : JsVal }.

(** Modelled from the spec: [getResultPrototype] of [./resultPrototype] is
    not part of the sources at hand.  Section 3 of the specification has the
    result "constructed once per verification call with default/neutral
    values", the signer being "empty if not determined": a fresh object per
    call whose [signer] is the empty string.  Every branch of the service
    overwrites [success], [code] and [message]. *)
Definition getResultPrototype : Result :=
  {| mailId := ""; success := false; code := CANNOT_VERIFY; message := ""; signer := JStr "" |}.

(** [result.mailId = id]. *)
Definition set_mailId (r : Result) (id : string) : Result :=
  {| mailId := id; success := success r; code := code r; message := message r; signer := signer r |}.

(** [result.signer = s]. *)
Definition set_signer (r : Result) (s : JsVal) : Result :=
  {| mailId := mailId r; success := success r; code := code r; message := message r; signer := s |}.

(** [result.success = s; result.code = c; result.message = m]. *)
Definition conclude (r : Result) (s : bool) (c : ResultCode) (m : string) : Result :=
  {| mailId := mailId r; success := s; code := c; message := m; signer := signer r |}.

(** A content-type header as emailjs-mime-parser stores it. *)
Record ContentType : Type := mkContentType {
  ct_value : string;
  ct_params : option (gmap string string) }.

(** One parsed mailbox of an address header; the [address] of a group
    entry is [undefined], here [None]. *)
Record Mailbox : Type := mkMailbox {
  mb_name : string;
  mb_address : option string }.

Record HeaderEntry : Type := mkHeaderEntry {
  he_initial : string;
  he_value : list Mailbox }.

(** A node of the MIME tree.  [contentType] is absent until the header
    block of the node is complete, [_childNodes] is [false] (here [None])
    unless the node is a multipart. *)
#[warnings="-register-all"]
Inductive MimeNode : Type := mkMimeNode {
  contentType : option ContentType;
  _childNodes : option (list MimeNode);
  headers : gmap string (list HeaderEntry);
  raw : string;
  content : option ArrayBuffer }.

(** The parser after [write] and [end]: the root and the table of nodes,
    keyed ["node" + path]. *)
Record MimeParser : Type := mkMimeParser {
  node : MimeNode;
  nodes : gmap string MimeNode }.

Definition getNode (parser : MimeParser) (path : string) : option MimeNode :=
  nodes parser !! ("node" ++ path).

(** A relative distinguished name component: [type] is the OID in dotted
    form, [value] is [value.valueBlock.value], [valueHex] its raw bytes. *)
Record AttributeTypeAndValue : Type := mkATV {
  atv_type : string;
  atv_value : string;
  atv_valueHex : ArrayBuffer }.

(** A certificate; dates are [getTime()] values, milliseconds. *)
Record Certificate : Type := mkCertificate {
  subject : list AttributeTypeAndValue;
  issuer : list AttributeTypeAndValue;
  notBefore : Z;
  notAfter : Z;
  serialNumber : ArrayBuffer;
  tbs : ArrayBuffer }.

(** The argument object of [SignedData.verify]. *)
Record VerifyParams : Type := mkVerifyParams {
  vp_signer : nat;
  vp_data : ArrayBuffer;
  vp_checkChain : bool }.

(** ** The environment of the service *)

(** What the service asks of emailjs-mime-parser, asn1js and pkijs. *)
Class Libraries : Type := {
  (** decoded ASN.1 values and decoded CMS SignedData structures *)
  Asn1 : Type;
  SignedData : Type;
  (** [new MimeParser()], [write(rawMessage)], [end()] *)
  MimeParser_run : string -> MimeParser;
  (** [asn1js.fromBER]: the [offset] and [result] fields of what it returns *)
  fromBER : ArrayBuffer -> Z * Asn1;
  (** [new ContentInfo({schema})] followed by [.content] *)
  ContentInfo_content : Asn1 -> Exc Asn1;
  (** [new SignedData({schema})] *)
  SignedData_new : Asn1 -> Exc SignedData;
  (** the [certificates] field, which a SignedData may lack *)
  certificates : SignedData -> option (list Certificate);
  (** [signedData.verify(params)], by the way its promise settles *)
  SignedData_verify : SignedData -> VerifyParams -> Promise JsVal }.

(** The wall clock and the entries of [smimeSpecificationConstants] whose
    values are not listed in [constants.js]. *)
Class Ambient : Type := {
  (** [new Date()], milliseconds *)
  now : Z;
  expirationDateMarginHours : Z;
  (** the OID of the e-mail address attribute *)
  certificateTypeForSignerEmail : string }.

(** ** The service ([smimeVerificationService.js], lines 10 to 205) *)

Section Service.
Context {lib : Libraries} {amb : Ambient}.

Import smimeSpecificationConstants.

Definition undefined_property {A : Type} (what : string) : Exc A :=
  Throw (TypeError ("Cannot read property of undefined: " ++ what)).

(** [rootNode.contentType.value], [rootNode.contentType.params.<key>] *)
Definition contentType_value (n : MimeNode) : Exc string :=
  match contentType n with
  | Some ct => Ret (ct_value ct)
  | None => undefined_property "contentType.value"
  end.

Definition contentType_param (n : MimeNode) (key : string) : Exc JsVal :=
  match contentType n with
  | Some ct =>
      match ct_params ct with
      | Some ps => Ret (from_option JStr JUndefined (ps !! key))
      | None => undefined_property "contentType.params"
      end
  | None => undefined_property "contentType.params"
  end.

Definition isRootNodeContentTypeValueCorrect (rootNode : MimeNode) : Exc bool :=
  v <- contentType_value rootNode ;;
  Ret (negb (String_indexOf rootNodeContentTypeValue v =? -1)).

Definition isRootNodeContentTypeProtocolCorrect (rootNode : MimeNode) : Exc bool :=
  p <- contentType_param rootNode "protocol" ;;
  Ret (strict_eq p (JStr rootNodeContentTypeProtocol)).

Definition isRootNodeContentTypeMicalgCorrect (rootNode : MimeNode) : Exc bool :=
  m <- contentType_param rootNode "micalg" ;;
  Ret (negb (Array_indexOf rootNodeContentTypeMessageIntegrityCheckAlgorithms m =? -1)).

Definition isSignatureNodeContentTypeValueCorrect (signatureNode : MimeNode) : Exc bool :=
  v <- contentType_value signatureNode ;;
  Ret (negb (Array_indexOf signatureNodeContentTypeValues (JStr v) =? -1)).

(** The chain of [&&]; objects and arrays are truthy, [undefined], [null]
    and [false] are not.  [getNode] yields [null] for a missing node. *)
Definition isValidSmimeEmail (rootNode : MimeNode) (signatureNode : option MimeNode) : Exc bool :=
  match contentType rootNode with
  | None => Ret false
  | Some ct =>
      match ct_params ct with
      | None => Ret false
      | Some _ =>
          match _childNodes rootNode with
          | None => Ret false
          | Some _ =>
              match signatureNode with
              | None => Ret false
              | Some sn =>
                  isRootNodeContentTypeValueCorrect rootNode &&&
                  isRootNodeContentTypeProtocolCorrect rootNode &&&
                  isRootNodeContentTypeMicalgCorrect rootNode &&&
                  isSignatureNodeContentTypeValueCorrect sn
              end
          end
      end
  end.

(** pvutils [utilConcatBuf(new ArrayBuffer(0), buf)]; reading
    [byteLength] of [undefined] throws. *)
Definition utilConcatBuf (first : ArrayBuffer) (second : option ArrayBuffer) : Exc ArrayBuffer :=
  match second with
  | Some b => Ret (first ++ b)%list
  | None => undefined_property "byteLength"
  end.

Definition getAsn1TypeFromBuffer (signatureBuffer : ArrayBuffer) : Exc (Z * Asn1) :=
  let asn1 := fromBER signatureBuffer in
  if fst asn1 =? -1 then Throw (TypeError "Could not parse signature.")
  else Ret asn1.

Definition getSignedDataFromAsn1 (asn1 : Z * Asn1) : Exc SignedData :=
  cmsContentSimpl_content <- ContentInfo_content (snd asn1) ;;
  SignedData_new cmsContentSimpl_content.

(** The inner [forEach]: the attributes of one subject, in order. *)
Definition scanSubject (signerEmail : JsVal) (typesAndValues : list AttributeTypeAndValue) : JsVal :=
  fold_left
    (fun acc tv =>
       if String.eqb (atv_type tv) certificateTypeForSignerEmail
       then JStr (atv_value tv) else acc)
    typesAndValues signerEmail.

(** [Object.keys] of [undefined] throws; the keys of an array come in
    index order. *)
Definition fetchSignerEmail (signedData : SignedData) : Exc JsVal :=
  match certificates signedData with
  | None => undefined_property "Object.keys(certificates)"
  | Some certs => Ret (fold_left (fun acc cert => scanSubject acc (subject cert)) certs JNull)
  end.

Definition marginMilliseconds : Z := expirationDateMarginHours * 60 * 60 * 1000.

(** The body of the [for ... of] loop, with its two early returns. *)
Fixpoint anyExpiredFrom (certs : list Certificate) : bool :=
  match certs with
  | [] => false
  | certificate :: rest =>
      let startDateWithMargin := notBefore certificate - marginMilliseconds in
      if now <? startDateWithMargin then true
      else
        let endDateWithMargin := notAfter certificate + marginMilliseconds in
        if now >? endDateWithMargin then true
        else anyExpiredFrom rest
  end.

Definition isAnyCertificateExpired (signedData : SignedData) : Exc bool :=
  match certificates signedData with
  | None => undefined_property "certificates[Symbol.iterator]"
  | Some certs => Ret (anyExpiredFrom certs)
  end.

Definition isVerificationFailed (verificationResult : JsVal) : bool :=
  let failed := false in
  if negb (String.eqb (typeof verificationResult) "undefined") then
    if strict_eq verificationResult (JBool false) then true else failed
  else failed.

(** [parser.node.headers.from[0].value[0]] and its [address]. *)
Definition isFromAddressCorrect (parser : MimeParser) (signerEmail : JsVal) : Exc bool :=
  match headers (node parser) !! "from" with
  | None => undefined_property "headers.from[0]"
  | Some entries =>
      match entries !! 0%nat with
      | None => undefined_property "headers.from[0].value"
      | Some entry =>
          match he_value entry !! 0%nat with
          | None => undefined_property "fromNode.address"
          | Some fromNode =>
              Ret (strict_eq (from_option JStr JUndefined (mb_address fromNode)) signerEmail)
          end
      end
  end.

Definition CR : ascii := "013"%char.
Definition LF : ascii := "010"%char.

(** [s.replace(/\n/g, "\r\n")]: every line feed becomes the pair
    carriage return, line feed; nothing else is looked at. *)
Fixpoint replace_LF_with_CRLF (s : string) : string :=
  match s with
  | EmptyString => EmptyString
  | String c rest =>
      if Ascii.eqb c LF then String CR (String LF (replace_LF_with_CRLF rest))
      else String c (replace_LF_with_CRLF rest)
  end.

(** [stringToArrayBuffer(parser.nodes.node1.raw.replace(/\n/g, "\r\n"))] *)
Definition signedDataBuffer (parser : MimeParser) : Exc ArrayBuffer :=
  match nodes parser !! "node1" with
  | Some node1 => Ret (stringToArrayBuffer (replace_LF_with_CRLF (raw node1)))
  | None => undefined_property "nodes.node1.raw"
  end.

(** The texts shown to the user. *)
Definition dquote : string := String "034"%char EmptyString.
Definition msg_notSigned : string := "Message is not digitally signed.".
Definition msg_invalidSignature : string := "Fraud warning: Invalid digital signature.".
Definition msg_expired : string :=
  "The signature's certificate has expired. Be wary of message content.".
Definition msg_failedVerification : string :=
  "Fraud warning: Message failed verification with signature.".
Definition msg_fromMismatch : string :=
  "Fraud warning: The " ++ dquote ++ "From" ++ dquote ++
  " email address does not match the signature's email address.".
Definition msg_valid : string :=
  "Message includes a valid digital signature for the sender.".
Definition msg_unknownError : string := "Message cannot be verified: Unknown error.".

(** The body of the [try] block (lines 42 to 51); [signatureNode] is
    dereferenced inside it. *)
Definition tryDecode (signatureNode : option MimeNode) : Exc (SignedData * JsVal) :=
  match signatureNode with
  | None => undefined_property "signatureNode.content"
  | Some sn =>
      signatureBuffer <- utilConcatBuf [] (content sn) ;;
      asn1 <- getAsn1TypeFromBuffer signatureBuffer ;;
      cmsSignedSimpl <- getSignedDataFromAsn1 asn1 ;;
      signerEmail <- fetchSignerEmail cmsSignedSimpl ;;
      Ret (cmsSignedSimpl, signerEmail)
  end.

(** The handler given to [then] (lines 74 to 95).  It assigns
    [result.signer] and then either resolves (no error) or throws out of
    [isFromAddressCorrect]; the state of [result] is returned either way. *)
Definition thenHandler (parser : MimeParser) (result : Result) (signerEmail : JsVal)
    (verificationResult : JsVal) : Result * option JsError :=
  let result := set_signer result signerEmail in
  if isVerificationFailed verificationResult then
    (conclude result false FRAUD_WARNING msg_failedVerification, None)
  else
    match isFromAddressCorrect parser signerEmail with
    | Throw e => (result, Some e)
    | Ret false => (conclude result false FRAUD_WARNING msg_fromMismatch, None)
    | Ret true => (conclude result true VERIFICATION_OK msg_valid, None)
    end.

(** The handler given to [catch] (lines 97 to 102). *)
Definition catchHandler (result : Result) : Result :=
  conclude result false CANNOT_VERIFY msg_unknownError.

(** [p.then(thenHandler).catch(catchHandler)]: the second handler sees the
    rejection of [p] and the exceptions of the first handler alike, and
    works on the same [result] object. *)
Definition settle (parser : MimeParser) (result : Result) (signerEmail : JsVal)
    (p : Promise JsVal) : Result :=
  match p with
  | Fulfilled verificationResult =>
      match thenHandler parser result signerEmail verificationResult with
      | (result', None) => result'
      | (result', Some _) => catchHandler result'
      end
  | Rejected _ => catchHandler result
  end.

(** The promise returned by [verifyMessageSignature]: it is fulfilled by
    [resolve(result)] and rejected when the executor throws. *)
Definition verifyMessageSignature (rawMessage mailId : string) : Promise Result :=
  let result := set_mailId getResultPrototype mailId in
  let parser := MimeParser_run rawMessage in
  let signatureNode := getNode parser "2" in
  match isValidSmimeEmail (node parser) signatureNode with
  | Throw e => Rejected e
  | Ret false => Fulfilled (conclude result false CANNOT_VERIFY msg_notSigned)
  | Ret true =>
      match tryDecode signatureNode with
      | Throw _ => Fulfilled (conclude result false FRAUD_WARNING msg_invalidSignature)
      | Ret (cmsSignedSimpl, signerEmail) =>
          match isAnyCertificateExpired cmsSignedSimpl with
          | Throw e => Rejected e
          | Ret true => Fulfilled (conclude result false FRAUD_WARNING msg_expired)
          | Ret false =>
              match signedDataBuffer parser with
              | Throw e => Rejected e
              | Ret signedDataBuffer =>
                  Fulfilled
                    (settle parser result signerEmail
                       (SignedData_verify cmsSignedSimpl
                          {| vp_signer := 0; vp_data := signedDataBuffer;
                             vp_checkChain := false |}))
              end
          end
      end
  end.
End Service.

(** ** The revision with an OCSP request (lines 232 to 436)

    This revision keeps a field, [ocspReqBuffer], on the service object,
    draws a nonce from [Math.random] and writes to the console.  It has no
    expiry check, reads the signer address from the first attribute of the
    first certificate, and asks [verify] to check the chain. *)

(** What this revision asks of its libraries on top of [Libraries]. *)
Class OcspLibraries {lib : Libraries} : Type := {
  (** the state of the generator behind [Math.random] *)
  RngState : Type;
  (** [Math.floor(Math.random() * 62)] and the next generator state *)
  Math_random_index : RngState -> nat * RngState;
  (** [signedData.digestAlgorithms], as OIDs *)
  digestAlgorithms : SignedData -> list string;
  (** [new asn1js.OctetString({valueHex}).toBER(false)] *)
  OctetString_toBER : ArrayBuffer -> ArrayBuffer;
  (** [base64.encode] *)
  base64_encode : string -> string }.

(** The fields the code puts into the OCSP request. *)
Record OcspRequest : Type := mkOcspRequest {
  ocsp_tbs : ArrayBuffer;
  ocsp_requestorName : list (string * string);
  ocsp_hashAlgorithm : option string;
  ocsp_issuerNameHash : ArrayBuffer;
  ocsp_serialNumber : ArrayBuffer;
  ocsp_nonceExtension : string * ArrayBuffer }.

Inductive LogEntry : Type :=
| LogString (s : string)
| LogError (e : JsError).

Module ServiceOcsp.
Section ServiceOcsp.
Context {lib : Libraries} {olib : OcspLibraries}.
(** [ocspReqSimpl.toSchema(true).toBER(false)] *)
Variable OCSPRequest_toBER : OcspRequest -> Exc ArrayBuffer.

(** Everything a call can read or write besides its arguments: the field
    of the service object, the random generator, the console. *)
Record World : Type := mkWorld {
  ocspReqBuffer : ArrayBuffer;
  rng : RngState;
  console : list LogEntry }.

(** [constructor()] *)
Definition constructor (g : RngState) : World :=
  {| ocspReqBuffer := []; rng := g; console := [] |}.

Definition console_log (w : World) (e : LogEntry) : World :=
  {| ocspReqBuffer := ocspReqBuffer w; rng := rng w; console := (console w ++ [e])%list |}.

Definition possible : string :=
  "ABCDEFGHIJKLMNOPQRSTUVWXYZabcdefghijklmnopqrstuvwxyz0123456789".

(** [possible.charAt(i)], the empty string out of range. *)
Definition charAt (s : string) (i : nat) : string :=
  match String.get i s with
  | Some c => String c EmptyString
  | None => EmptyString
  end.

(** The [for] loop of [nonceGenerator], [n] iterations left. *)
Fixpoint nonceText (n : nat) (text : string) (g : RngState) : string * RngState :=
  match n with
  | O => (text, g)
  | S n' =>
      let (i, g') := Math_random_index g in
      nonceText n' (text ++ charAt possible i) g'
  end.

Definition nonceGenerator (length : nat) (g : RngState) : ArrayBuffer * RngState :=
  let (text, g') := nonceText length "" g in
  (stringToArrayBuffer text, g').

Definition arrayBufferToString (b : ArrayBuffer) : string := string_of_list_byte b.

(** The body of the [try] block (lines 270 to 324) from the world [w]:
    its outcome and the world it leaves. *)
Definition tryBlock (signatureNode : option MimeNode) (w : World) : Exc (SignedData * JsVal) * World :=
  match signatureNode with
  | None => (undefined_property "signatureNode.content", w)
  | Some sn =>
      match (signatureBuffer <- utilConcatBuf [] (content sn) ;;
             asn1 <- getAsn1TypeFromBuffer signatureBuffer ;;
             getSignedDataFromAsn1 asn1) with
      | Throw e => (Throw e, w)
      | Ret cmsSignedSimpl =>
          match from_option (fun certs => certs !! 0%nat) None (certificates cmsSignedSimpl) with
          | None => (undefined_property "certificates[0].tbs", w)
          | Some cert0 =>
              match issuer cert0 !! 3%nat with
              | None => (undefined_property "typesAndValues[3].value", w)
              | Some issuerAttribute =>
                  let (nonce, g) := nonceGenerator 32 (rng w) in
                  let w := {| ocspReqBuffer := ocspReqBuffer w; rng := g; console := console w |} in
                  let ocspReqSimpl :=
                    {| ocsp_tbs := tbs cert0;
                       ocsp_requestorName := [("2.5.4.6", "DE"); ("2.5.4.3", "Rocket Thingy")];
                       ocsp_hashAlgorithm := digestAlgorithms cmsSignedSimpl !! 0%nat;
                       ocsp_issuerNameHash := atv_valueHex issuerAttribute;
                       ocsp_serialNumber := serialNumber cert0;
                       ocsp_nonceExtension := ("1.3.6.1.5.5.7.48.1.2", OctetString_toBER nonce) |} in
                  match OCSPRequest_toBER ocspReqSimpl with
                  | Throw e => (Throw e, w)
                  | Ret ber =>
                      let w := {| ocspReqBuffer := ber; rng := rng w; console := console w |} in
                      let resultString := base64_encode (arrayBufferToString (ocspReqBuffer w)) in
                      let w := console_log w (LogString "resultString") in
                      let w := console_log w (LogString resultString) in
                      match subject cert0 !! 0%nat with
                      | None => (undefined_property "typesAndValues[0].value", w)
                      | Some attribute => (Ret (cmsSignedSimpl, JStr (atv_value attribute)), w)
                      end
                  end
              end
          end
      end
  end.

(** [p.then(...).catch(...)] of this revision: as [settle], and the
    [catch] handler logs what it caught. *)
Definition settle (parser : MimeParser) (result : Result) (signerEmail : JsVal)
    (p : Promise JsVal) (w : World) : Result * World :=
  match p with
  | Fulfilled verificationResult =>
      match thenHandler parser result signerEmail verificationResult with
      | (result', None) => (result', w)
      | (result', Some error) => (catchHandler result', console_log w (LogError error))
      end
  | Rejected error => (catchHandler result, console_log w (LogError error))
  end.

Definition verifyMessageSignature (rawMessage mailId : string) (w : World) : Promise Result * World :=
  let result := set_mailId getResultPrototype mailId in
  let parser := MimeParser_run rawMessage in
  let signatureNode := getNode parser "2" in
  match isValidSmimeEmail (node parser) signatureNode with
  | Throw e => (Rejected e, w)
  | Ret false => (Fulfilled (conclude result false CANNOT_VERIFY msg_notSigned), w)
  | Ret true =>
      match tryBlock signatureNode w with
      | (Throw ex, w) =>
          (Fulfilled (conclude result false FRAUD_WARNING msg_invalidSignature),
           console_log w (LogError ex))
      | (Ret (cmsSignedSimpl, signerEmail), w) =>
          match signedDataBuffer parser with
          | Throw e => (Rejected e, w)
          | Ret signedDataBuffer =>
              let (result, w) :=
                settle parser result signerEmail
                  (SignedData_verify cmsSignedSimpl
                     {| vp_signer := 0; vp_data := signedDataBuffer; vp_checkChain := true |})
                  w in
              (Fulfilled result, w)
          end
      end
  end.
End ServiceOcsp.
End ServiceOcsp.

(** ** Stages of the pipeline *)

Section Stages.
Context {lib : Libraries} {amb : Ambient}.

(** The synchronous part of [verifyMessageSignature] went through: the
    envelope check passed, the [try] block produced [signedData] and
    [signerEmail], no certificate is outside its window and the signed
    bytes are [buffer]. *)
Definition ReadyToVerify (rawMessage : string) (signedData : SignedData)
    (signerEmail : JsVal) (buffer : ArrayBuffer) : Prop :=
  let parser := MimeParser_run rawMessage in
  isValidSmimeEmail (node parser) (getNode parser "2") = Ret true /\
  tryDecode (getNode parser "2") = Ret (signedData, signerEmail) /\
  isAnyCertificateExpired signedData = Ret false /\
  signedDataBuffer parser = Ret buffer.

(** The argument of [verify] in the first revision. *)
Definition verifyParams (buffer : ArrayBuffer) : VerifyParams :=
  {| vp_signer := 0; vp_data := buffer; vp_checkChain := false |}.

(** The result of the identity check on a [result] whose signer has been
    assigned: what the [then] handler does once the signature is not
    reported as failed, the [catch] handler included. *)
Definition identityVerdict (parser : MimeParser) (result : Result) (signerEmail : JsVal) : Result :=
  match isFromAddressCorrect parser signerEmail with
  | Ret true => conclude result true VERIFICATION_OK msg_valid
  | Ret false => conclude result false FRAUD_WARNING msg_fromMismatch
  | Throw _ => conclude result false CANNOT_VERIFY msg_unknownError
  end.

(** The first mailbox of the first [From] header, when there is one. *)
Definition firstFromMailbox (parser : MimeParser) : option Mailbox :=
  match headers (node parser) !! "from" with
  | Some entries =>
      match entries !! 0%nat with
      | Some entry => he_value entry !! 0%nat
      | None => None
      end
  | None => None
  end.

(** A certificate whose window, widened by the margin, excludes [now]. *)
Definition outsideWindow (c : Certificate) : Prop :=
  now < notBefore c - marginMilliseconds \/ now > notAfter c + marginMilliseconds.
End Stages.

(** ** The wording of the specification

    Definitions that follow the words of the specification, to be compared
    with what the service computes. *)

Section Wording.
Context {lib : Libraries} {amb : Ambient}.

Import smimeSpecificationConstants.

Definition isEmailAttribute (tv : AttributeTypeAndValue) : bool :=
  String.eqb (atv_type tv) certificateTypeForSignerEmail.

(** "the attribute value whose attribute type corresponds to the e-mail
    address OID", from "the envelope's first certificate's subject". *)
Definition firstCertificateEmail (signedData : SignedData) : option string :=
  match certificates signedData with
  | Some (first :: _) =>
      match List.find isEmailAttribute (subject first) with
      | Some tv => Some (atv_value tv)
      | None => None
      end
  | _ => None
  end.

(** The value of the last e-mail address attribute met when the subjects of
    all the certificates are read in order; [null] when there is none. *)
Definition lastEmailAttribute (certs : list Certificate) : JsVal :=
  match last (List.filter isEmailAttribute (concat (map subject certs))) with
  | Some tv => JStr (atv_value tv)
  | None => JNull
  end.

(** The identity check as the specification has it, for one message: once
    [verify] resolves true, a first-certificate address that differs from
    the first [From] mailbox yields the mismatch verdict. *)
Definition identityCheck_asSpecified (rawMessage mailId : string) : Prop :=
  forall signedData signerEmail buffer email mailbox,
    ReadyToVerify rawMessage signedData signerEmail buffer ->
    SignedData_verify signedData (verifyParams buffer) = Fulfilled (JBool true) ->
    firstCertificateEmail signedData = Some email ->
    firstFromMailbox (MimeParser_run rawMessage) = Some mailbox ->
    mb_address mailbox <> Some email ->
    exists r,
      verifyMessageSignature rawMessage mailId = Fulfilled r /\
      code r = FRAUD_WARNING /\ message r = msg_fromMismatch /\ success r = false.

(** A signer field that is "populated (non-empty)". *)
Definition populated (v : JsVal) : Prop := exists s, v = JStr s /\ s <> "".

(** The invariant on [signer] and [success] as the specification has it,
    for one message. *)
Definition signerInvariant_asSpecified (rawMessage mailId : string) : Prop :=
  let parser := MimeParser_run rawMessage in
  forall r,
    verifyMessageSignature rawMessage mailId = Fulfilled r ->
    (code r = VERIFICATION_OK -> populated (signer r)) /\
    (code r = FRAUD_WARNING ->
     (exists signedData signerEmail,
        tryDecode (getNode parser "2") = Ret (signedData, signerEmail)) ->
     populated (signer r)) /\
    (code r = CANNOT_VERIFY ->
     isValidSmimeEmail (node parser) (getNode parser "2") = Ret false ->
     signer r = JStr "") /\
    (success r = true -> code r = VERIFICATION_OK).





(** Each pair carriage return, line feed read back as a line feed. *)
Fixpoint replace_CRLF_with_LF (s : string) : string :=
  match s with
  | EmptyString => EmptyString
  | String c rest =>
      match rest with
      | String c' rest' =>
          if Ascii.eqb c CR && Ascii.eqb c' LF then String LF (replace_CRLF_with_LF rest')
          else String c (replace_CRLF_with_LF rest)
      | EmptyString => String c EmptyString
      end
  end.

(** ASCII lower-casing. *)
Definition toLowerAscii (c : ascii) : ascii :=
  let n := nat_of_ascii c in
  if (65 <=? n)%nat && (n <=? 90)%nat then ascii_of_nat (n + 32) else c.

Fixpoint toLowerCase (s : string) : string :=
  match s with
  | EmptyString => EmptyString
  | String c rest => String (toLowerAscii c) (toLowerCase rest)
  end.

(** The [micalg] check as the specification has it, for one root node: it
    passes exactly when the parameter matches a member of the set without
    regard to case. *)
Definition micalgCheck_asSpecified (rootNode : MimeNode) : Prop :=
  forall micalg,
    contentType_param rootNode "micalg" = Ret (JStr micalg) ->
    (isRootNodeContentTypeMicalgCorrect rootNode = Ret true <->
     In (toLowerCase micalg) rootNodeContentTypeMessageIntegrityCheckAlgorithms).
End Wording.

(** ** An assumption on the OCSP encoder *)

(** [req] with another nonce extension. *)
Definition with_nonceExtension (req : OcspRequest) (ext : string * ArrayBuffer) : OcspRequest :=
  {| ocsp_tbs := ocsp_tbs req;
     ocsp_requestorName := ocsp_requestorName req;
     ocsp_hashAlgorithm := ocsp_hashAlgorithm req;
     ocsp_issuerNameHash := ocsp_issuerNameHash req;
     ocsp_serialNumber := ocsp_serialNumber req;
     ocsp_nonceExtension := ext |}.

Definition throws {A : Type} (x : Exc A) : bool :=
  match x with
  | Throw _ => true
  | Ret _ => false
  end.

(** Whether the BER encoder of OCSP requests fails does not depend on the
    nonce extension of the request. *)
Definition nonceBlind (OCSPRequest_toBER : OcspRequest -> Exc ArrayBuffer) : Prop :=
  forall req ext ext',
    throws (OCSPRequest_toBER (with_nonceExtension req ext)) =
    throws (OCSPRequest_toBER (with_nonceExtension req ext')).

(** Two outcomes of the [try] block that the rest of the call cannot tell
    apart: the same value, or two exceptions. *)
Definition sameOutcome {A : Type} (x y : Exc A) : Prop :=
  match x, y with
  | Ret a, Ret b => a = b
  | Throw _, Throw _ => True
  | _, _ => False
  end.

(** ** Concrete environments

    Small instances of the two interfaces, used to run the service on
    explicit messages. *)

Module Fixtures.
Import smimeSpecificationConstants.

(** A library whose parser yields [parser], whose BER decoder reports
    [offset], whose SignedData decoder yields [cms] (the certificate list
    stands for the decoded structure) and whose [verify] is [verify]. *)
Definition library (parser : MimeParser) (offset : Z)
    (cms : Exc (option (list Certificate)))
    (verify : VerifyParams -> Promise JsVal) : Libraries :=
  {| Asn1 := unit;
     SignedData := option (list Certificate);
     MimeParser_run := fun _ => parser;
     fromBER := fun _ => (offset, tt);
     ContentInfo_content := fun a => Ret a;
     SignedData_new := fun _ => cms;
     certificates := fun sd => sd;
     SignedData_verify := fun _ => verify |}.

Definition emailAddressOID : string := "1.2.840.113549.1.9.1".
Definition commonNameOID : string := "2.5.4.3".

(** The clock reads [t]; the margin is two hours. *)
Definition ambient (t : Z) : Ambient :=
  {| now := t; expirationDateMarginHours := 2;
     certificateTypeForSignerEmail := emailAddressOID |}.

Definition hour : Z := 60 * 60 * 1000.

(** A certificate for [email], valid from [from] to [to]. *)
Definition certificateFor (email : string) (from to : Z) : Certificate :=
  {| subject := [ {| atv_type := commonNameOID; atv_value := "Sender"; atv_valueHex := [] |};
                  {| atv_type := emailAddressOID; atv_value := email; atv_valueHex := [] |} ];
     issuer := [ {| atv_type := "2.5.4.6"; atv_value := "DE"; atv_valueHex := [] |};
                 {| atv_type := "2.5.4.10"; atv_value := "Example"; atv_valueHex := [] |};
                 {| atv_type := "2.5.4.11"; atv_value := "Mail"; atv_valueHex := [] |};
                 {| atv_type := commonNameOID; atv_value := "Example CA"; atv_valueHex := [] |} ];
     notBefore := from;
     notAfter := to;
     serialNumber := [];
     tbs := [] |}.

Definition leaf (ct : string) (body : string) : MimeNode :=
  {| contentType := Some {| ct_value := ct; ct_params := Some ∅ |};
     _childNodes := None;
     headers := ∅;
     raw := body;
     content := Some (stringToArrayBuffer body) |}.

Definition bodyNode (body : string) : MimeNode := leaf "text/plain" body.
Definition signatureNode : MimeNode := leaf "application/pkcs7-signature" "0".

(** The root of a message [From: from] with content type [ct], protocol
    and [micalg] parameters as given, and the two parts above. *)
Definition rootNode (ct micalg from body : string) : MimeNode :=
  {| contentType :=
       Some {| ct_value := ct;
               ct_params := Some (<["protocol" := rootNodeContentTypeProtocol]>
                                  (<["micalg" := micalg]> ∅)) |};
     _childNodes := Some [bodyNode body; signatureNode];
     headers := {[ "from" := [ {| he_initial := from;
                                  he_value := [ {| mb_name := ""; mb_address := Some from |} ] |} ] ]};
     raw := "";
     content := None |}.

Definition signedMessage (ct micalg from body : string) : MimeParser :=
  let root := rootNode ct micalg from body in
  {| node := root;
     nodes := <["node" := root]> (<["node1" := bodyNode body]> (<["node2" := signatureNode]> ∅)) |}.

(** An unsigned, single-part message. *)
Definition plainMessage (body : string) : MimeParser :=
  let root := leaf "text/plain" body in
  {| node := root; nodes := {[ "node" := root ]} |}.
(** The messages and environments the properties are run on. *)

Definition resolves (v : JsVal) : VerifyParams -> Promise JsVal := fun _ => Fulfilled v.

Definition alice : string := "alice@example.org".
Definition mallory : string := "mallory@example.org".

(** Alice's certificate, valid for the first hundred hours of the epoch. *)
Definition aliceCertificate : Certificate := certificateFor alice 0 (100 * hour).
Definition malloryCertificate : Certificate := certificateFor mallory 0 (100 * hour).

(** A signed message from Alice whose body has two lines ended by bare
    line feeds. *)
Definition body : string := "Hello" ++ String LF ("World" ++ String LF "").
Definition aliceMessage : MimeParser := signedMessage "multipart/signed" "sha-256" alice body.

(** The library that parses to [aliceMessage], decodes Alice's certificate
    and whose [verify] resolves with [v]. *)
Definition aliceLibrary (v : JsVal) : Libraries :=
  library aliceMessage 42 (Ret (Some [aliceCertificate])) (resolves v).

(** The same with a [verify] that rejects. *)
Definition aliceLibraryRejecting : Libraries :=
  library aliceMessage 42 (Ret (Some [aliceCertificate]))
    (fun _ => Rejected (LibraryError "Unsupported algorithm")).

(** The same with a signature part that is not BER. *)
Definition aliceLibraryNoBER : Libraries :=
  library aliceMessage (-1) (Ret (Some [aliceCertificate])) (resolves (JBool true)).

(** A message that says it is from Mallory, whose envelope carries
    Alice's certificate first and Mallory's second. *)
Definition twoCertificateLibrary : Libraries :=
  library (signedMessage "multipart/signed" "sha-256" mallory body) 42
    (Ret (Some [aliceCertificate; malloryCertificate])) (resolves (JBool true)).

(** Alice's message with the root content type cut short. *)
Definition truncatedTypeMessage : MimeParser :=
  signedMessage "multipart/sign" "sha-256" alice body.
Definition truncatedTypeLibrary : Libraries :=
  library truncatedTypeMessage 42 (Ret (Some [aliceCertificate])) (resolves (JBool true)).

(** Alice's message with the [micalg] parameter in upper case. *)
Definition upperCaseMicalgRoot : MimeNode := rootNode "multipart/signed" "SHA-256" alice body.


(** The first mailbox of the two messages. *)
Definition aliceMailbox : Mailbox := {| mb_name := ""; mb_address := Some alice |}.
Definition malloryMailbox : Mailbox := {| mb_name := ""; mb_address := Some mallory |}.

(** Within the window of the certificates, and long after it. *)
Definition inTime : Ambient := ambient (50 * hour).
Definition tooLate : Ambient := ambient (500 * hour).

(** The bytes [verify] is given for [body]. *)
Definition bodyBuffer : ArrayBuffer := stringToArrayBuffer (replace_LF_with_CRLF body).

(** An OCSP setting: a generator that counts, an encoder that never
    fails. *)
Definition countingOcsp (lib : Libraries) : @OcspLibraries lib :=
  {| RngState := nat;
     Math_random_index := fun n => (Nat.modulo n 62, S n);
     digestAlgorithms := fun _ => ["2.16.840.1.101.3.4.2.1"];
     OctetString_toBER := fun b => b;
     base64_encode := fun s => s |}.

Definition encodeOcsp (req : OcspRequest) : Exc ArrayBuffer :=
  Ret (ocsp_tbs req ++ snd (ocsp_nonceExtension req))%list.
End Fixtures.

(** ** Regular expressions

    What [markingService.js] needs of them: literals, character ranges,
    alternation, sequence and repetition, matched against a whole string
    (the expression there is anchored at both ends) by derivatives. *)

Inductive Regex : Type :=
| Void
| Eps
| Chr (c : ascii)
| Range (lo hi : ascii)
| Alt (r1 r2 : Regex)
| Seq (r1 r2 : Regex)
| Star (r : Regex).

(** [r+], [r?] and a literal string. *)
Definition Plus (r : Regex) : Regex := Seq r (Star r).
Definition Opt (r : Regex) : Regex := Alt r Eps.
Fixpoint Lit (s : string) : Regex :=
  match s with
  | EmptyString => Eps
  | String c rest => Seq (Chr c) (Lit rest)
  end.

Definition inRange (lo hi c : ascii) : bool :=
  (nat_of_ascii lo <=? nat_of_ascii c)%nat && (nat_of_ascii c <=? nat_of_ascii hi)%nat.

(** [r] matches the empty string. *)
Fixpoint nullable (r : Regex) : bool :=
  match r with
  | Void => false
  | Eps => true
  | Chr _ => false
  | Range _ _ => false
  | Alt r1 r2 => nullable r1 || nullable r2
  | Seq r1 r2 => nullable r1 && nullable r2
  | Star _ => true
  end.

(** What is left of [r] once [c] has been read. *)
Fixpoint derive (c : ascii) (r : Regex) : Regex :=
  match r with
  | Void => Void
  | Eps => Void
  | Chr d => if Ascii.eqb c d then Eps else Void
  | Range lo hi => if inRange lo hi c then Eps else Void
  | Alt r1 r2 => Alt (derive c r1) (derive c r2)
  | Seq r1 r2 =>
      if nullable r1 then Alt (Seq (derive c r1) r2) (derive c r2)
      else Seq (derive c r1) r2
  | Star r1 => Seq (derive c r1) (Star r1)
  end.

(** [/^r$/.exec(s) != null] *)
Fixpoint matches (r : Regex) (s : string) : bool :=
  match s with
  | EmptyString => nullable r
  | String c rest => matches (derive c r) rest
  end.

(** The strings of [r]. *)
Inductive Matches : Regex -> string -> Prop :=
| MEps : Matches Eps ""
| MChr c : Matches (Chr c) (String c "")
| MRange lo hi c : inRange lo hi c = true -> Matches (Range lo hi) (String c "")
| MAltL r1 r2 s : Matches r1 s -> Matches (Alt r1 r2) s
| MAltR r1 r2 s : Matches r2 s -> Matches (Alt r1 r2) s
| MSeq r1 r2 s1 s2 : Matches r1 s1 -> Matches r2 s2 -> Matches (Seq r1 r2) (s1 ++ s2)
| MStarNil r : Matches (Star r) ""
| MStarCons r s1 s2 : Matches r s1 -> Matches (Star r) s2 -> Matches (Star r) (s1 ++ s2).

(** ** The marking service ([markingService.js], the unnamed source) *)

(** [smimeVerificationResultCodes] of [constants.js]: the codes are
    strings. *)
Definition codeString (c : ResultCode) : string :=
  match c with
  | VERIFICATION_OK => "VERIFICATION_OK"
  | CANNOT_VERIFY => "CANNOT_VERIFY"
  | FRAUD_WARNING => "FRAUD_WARNING"
  end.

(** The calls the service makes on the page, with their arguments: the
    span and the icon that [markForInbox] inserts before the last element
    of the header, the [addAttachmentIcon] of the SDK, and [addInfoText],
    which inserts its span before the first element of class
    [markedClassName] when the page has one.  The walk through the page
    that finds the header is not part of the model. *)
Inductive DomCall : Type :=
| InsertSpan (className : string) (innerHTML : JsVal)
| InsertIcon (src title : string)
| AddAttachmentIcon (iconUrl iconClass tooltip : string)
| AddInfoText (markedClassName : string) (className : string) (innerHTML : JsVal).

Section MarkingService.
(** [chrome.runtime.getURL] *)
Variable chrome_runtime_getURL : string -> string.

(** [a-z0-9/?=&] *)
Definition inboxPathClass : Regex :=
  Alt (Range "a" "z") (Alt (Range "0" "9")
    (Alt (Chr "/") (Alt (Chr "?") (Alt (Chr "=") (Chr "&"))))).

(** [/^https:\/\/inbox\.google\.com\/([a-z0-9/?=&]+)?$/] *)
Definition inboxRegex : Regex :=
  Seq (Lit "https://inbox.google.com/") (Opt (Plus inboxPathClass)).

(** [isInbox()], [href] being [window.location.href]: a match yields an
    array of length two, which is truthy. *)
Definition isInbox (href : string) : bool := matches inboxRegex href.

Definition getInfoText (result : Result) : JsVal :=
  if String.eqb (codeString (code result)) (codeString FRAUD_WARNING) then JStr "Fraud warning!"
  else if String.eqb (codeString (code result)) (codeString VERIFICATION_OK) then signer result
  else JStr "".

Definition getIconPath (result : Result) : string :=
  "img/" ++ toLowerCase (codeString (code result)) ++ ".png".

(** [createCustomIcon] followed by its insertion. *)
Definition createCustomIcon (iconUrl message : string) : DomCall := InsertIcon iconUrl message.

(** The two [insertBefore] of [markForInbox], in order. *)
Definition markForInbox (result : Result) (iconUrl : string) (infoText : JsVal) : list DomCall :=
  [InsertSpan "smime-sender-inbox" infoText; createCustomIcon iconUrl (message result)].

(** [addAttachmentIcon] and then [addInfoText]. *)
Definition markForGmail (result : Result) (iconUrl : string) (infoText : JsVal) : list DomCall :=
  let markedClassName := "smime-mark-" ++ mailId result in
  [AddAttachmentIcon iconUrl markedClassName (message result);
   AddInfoText markedClassName "smime-sender-gmail" infoText].

Definition markResult (href : string) (result : Result) : list DomCall :=
  if String.eqb (codeString (code result)) (codeString CANNOT_VERIFY) then []
  else
    let iconUrl := chrome_runtime_getURL (getIconPath result) in
    let infoText := getInfoText result in
    if isInbox href then markForInbox result iconUrl infoText
    else markForGmail result iconUrl infoText.

(** The text a call puts on the page, if it puts one. *)
Definition shownText (call : DomCall) : option JsVal :=
  match call with
  | InsertSpan _ t => Some t
  | AddInfoText _ _ t => Some t
  | _ => None
  end.

(** The icon a call puts on the page, if it puts one. *)
Definition shownIcon (call : DomCall) : option string :=
  match call with
  | InsertIcon src _ => Some src
  | AddAttachmentIcon url _ _ => Some url
  | _ => None
  end.

(** A character the expression of [isInbox] allows after the host. *)
Definition inboxPathChar (c : ascii) : bool :=
  inRange "a" "z" c || inRange "0" "9" c ||
  Ascii.eqb c "/" || Ascii.eqb c "?" || Ascii.eqb c "=" || Ascii.eqb c "&".
End MarkingService.

(** ** Further vocabulary for the properties of the service *)

Section Vocabulary.
Context {lib : Libraries} {amb : Ambient}.

(** [v] occurs in [s] as a substring. *)
Definition occursIn (v s : string) : Prop := exists pre post, s = pre ++ v ++ post.

(** The number of line feeds of [s]. *)
Fixpoint countLF (s : string) : nat :=
  match s with
  | EmptyString => O
  | String c rest => if Ascii.eqb c LF then S (countLF rest) else countLF rest
  end.

(** [now] is within the window of [c] widened by the margin, bounds
    included. *)
Definition withinWindow (c : Certificate) : Prop :=
  notBefore c - marginMilliseconds <= now <= notAfter c + marginMilliseconds.

(** No subject of [certs] has an attribute of the e-mail address type. *)
Definition noEmailAttribute (certs : list Certificate) : Prop :=
  forall c tv, In c certs -> In tv (subject c) -> isEmailAttribute tv = false.

(** The root node passes the four tests made on it alone. *)
Definition rootAccepted (rootNode : MimeNode) : Prop :=
  exists ct params kids,
    contentType rootNode = Some ct /\ ct_params ct = Some params /\
    _childNodes rootNode = Some kids /\
    occursIn (ct_value ct) smimeSpecificationConstants.rootNodeContentTypeValue /\
    params !! "protocol" = Some smimeSpecificationConstants.rootNodeContentTypeProtocol /\
    (exists m, params !! "micalg" = Some m /\
               In m smimeSpecificationConstants.rootNodeContentTypeMessageIntegrityCheckAlgorithms).
(** Truthiness of a value, as [!] and [&&] see it. *)
Definition truthy (v : JsVal) : bool :=
  match v with
  | JUndefined => false
  | JNull => false
  | JBool b => b
  | JNum n => negb (n =? 0)
  | JStr s => negb (String.eqb s "")
  end.

(** The value the [&&] chain of [isValidSmimeEmail] evaluates to: its
    first falsy operand, or else its last operand.  [contentType] and
    [params] are objects or [undefined], [_childNodes] is an array or
    [false], the signature node an object or [null], the four tests yield
    booleans. *)
Definition isValidSmimeEmail_returned (rootNode : MimeNode)
    (signatureNode : option MimeNode) : Exc JsVal :=
  match contentType rootNode with
  | None => Ret JUndefined
  | Some ct =>
      match ct_params ct with
      | None => Ret JUndefined
      | Some _ =>
          match _childNodes rootNode with
          | None => Ret (JBool false)
          | Some _ =>
              match signatureNode with
              | None => Ret JNull
              | Some sn =>
                  b <- (isRootNodeContentTypeValueCorrect rootNode &&&
                        isRootNodeContentTypeProtocolCorrect rootNode &&&
                        isRootNodeContentTypeMicalgCorrect rootNode &&&
                        isSignatureNodeContentTypeValueCorrect sn) ;;
                  Ret (JBool b)
              end
          end
      end
  end.

(** The instants a [Date] can hold, in milliseconds; within them the
    arithmetic of the code on [getTime()] values is exact. *)
Definition dateLimit : Z := 8640000000000000.
Definition inDateRange (t : Z) : Prop := - dateLimit <= t <= dateLimit.

(** The clock, the margin, the dates of [certs] and the ends of their
    widened windows are all instants a [Date] can hold. *)
Definition datesExact (certs : list Certificate) : Prop :=
  inDateRange now /\ inDateRange marginMilliseconds /\
  forall c, In c certs ->
    inDateRange (notBefore c) /\ inDateRange (notAfter c) /\
    inDateRange (notBefore c - marginMilliseconds) /\
    inDateRange (notAfter c + marginMilliseconds).
End Vocabulary.

(** ** Further vocabulary for the revision with an OCSP request *)

Section OcspVocabulary.
Context {lib : Libraries} {olib : OcspLibraries}.

(** The generator after [n] draws. *)
Fixpoint advance (n : nat) (g : RngState) : RngState :=
  match n with
  | O => g
  | S n' => advance n' (snd (Math_random_index g))
  end.

(** The signature part of [parser] is there and decodes, through BER,
    ContentInfo and SignedData, to [signedData]. *)
Definition DecodesTo (parser : MimeParser) (signedData : SignedData) : Prop :=
  exists signatureNode bytes c,
    getNode parser "2" = Some signatureNode /\
    content signatureNode = Some bytes /\
    fst (fromBER bytes) <> -1 /\
    ContentInfo_content (snd (fromBER bytes)) = Ret c /\
    SignedData_new c = Ret signedData.
End OcspVocabulary.

(** ** More concrete environments *)

Module MoreFixtures.
Import Fixtures.

(** Alice's certificate without the e-mail address attribute. *)
Definition namelessCertificate : Certificate :=
  {| subject := [ {| atv_type := commonNameOID; atv_value := "Sender"; atv_valueHex := [] |} ];
     issuer := issuer aliceCertificate;
     notBefore := 0; notAfter := 100 * hour; serialNumber := []; tbs := [] |}.

Definition namelessLibrary : Libraries :=
  library aliceMessage 42 (Ret (Some [namelessCertificate])) (resolves (JBool true)).

(** A SignedData without the [certificates] field. *)
Definition noCertificatesLibrary : Libraries :=
  library aliceMessage 42 (Ret None) (resolves (JBool true)).

(** Alice's message without its [From] header. *)
Definition anonymousMessage : MimeParser :=
  let root :=
    {| contentType := contentType (node aliceMessage);
       _childNodes := _childNodes (node aliceMessage);
       headers := ∅; raw := ""; content := None |} in
  {| node := root; nodes := <["node" := root]> (nodes aliceMessage) |}.

Definition anonymousLibrary : Libraries :=
  library anonymousMessage 42 (Ret (Some [aliceCertificate])) (resolves (JBool true)).

(** Alice's message whose second part ends before its header block does:
    the part has no content type. *)
Definition unfinishedPart : MimeNode :=
  {| contentType := None; _childNodes := None; headers := ∅; raw := ""; content := None |}.

Definition unfinishedMessage : MimeParser :=
  {| node := node aliceMessage;
     nodes := <["node2" := unfinishedPart]> (nodes aliceMessage) |}.

Definition unfinishedLibrary : Libraries :=
  library unfinishedMessage 42 (Ret (Some [aliceCertificate])) (resolves (JBool true)).

(** A certificate whose issuer has three attributes only. *)
Definition shortIssuerCertificate : Certificate :=
  {| subject := subject aliceCertificate;
     issuer := firstn 3 (issuer aliceCertificate);
     notBefore := 0; notAfter := 100 * hour; serialNumber := []; tbs := [] |}.

Definition shortIssuerLibrary : Libraries :=
  library aliceMessage 42 (Ret (Some [shortIssuerCertificate])) (resolves (JBool true)).

(** A message from "Sender", the first subject attribute of Alice's
    certificate. *)
Definition senderLibrary : Libraries :=
  library (signedMessage "multipart/signed" "sha-256" "Sender" body) 42
    (Ret (Some [aliceCertificate])) (resolves (JBool true)).

(** An unsigned message. *)
Definition plainLibrary : Libraries :=
  library (plainMessage "Hello") 42 (Ret None) (resolves (JBool true)).

(** [chrome.runtime.getURL] of some extension. *)
Definition extensionURL (path : string) : string := "chrome-extension://smime/" ++ path.

(** Half an hour after the end of Alice's certificate. *)
Definition justAfter : Z := 100 * hour + 1800000.

(** A margin of [h] hours at time [t]. *)
Definition ambientWithMargin (t h : Z) : Ambient :=
  {| now := t; expirationDateMarginHours := h;
     certificateTypeForSignerEmail := emailAddressOID |}.
End MoreFixtures.

(** * Properties *)

(** ** Lemmas on the stages *)

Section StageLemmas.
Context {lib : Libraries} {amb : Ambient}.

Lemma verify_ready rawMessage mailId signedData signerEmail buffer :
  ReadyToVerify rawMessage signedData signerEmail buffer ->
  verifyMessageSignature rawMessage mailId =
  Fulfilled (settle (MimeParser_run rawMessage) (set_mailId getResultPrototype mailId)
               signerEmail (SignedData_verify signedData (verifyParams buffer))).
Proof.
  unfold ReadyToVerify; cbv zeta.
  intros (Henv & Hdec & Hexp & Hbuf).
  unfold verifyMessageSignature; cbv zeta.
  rewrite Henv, Hdec, Hexp, Hbuf. reflexivity.
Qed.

Lemma settle_not_failed parser result signerEmail v :
  isVerificationFailed v = false ->
  settle parser result signerEmail (Fulfilled v) =
  identityVerdict parser (set_signer result signerEmail) signerEmail.
Proof.
  intros Hv. unfold settle, thenHandler, identityVerdict; cbv zeta.
  rewrite Hv.
  destruct (isFromAddressCorrect parser signerEmail) as [[|]|]; reflexivity.
Qed.

Lemma isVerificationFailed_true v :
  isVerificationFailed v = true <-> v = JBool false.
Proof.
  split.
  - destruct v as [| |[|]| |]; cbn; intros H; congruence.
  - intros ->. reflexivity.
Qed.

Lemma anyExpiredFrom_true certs :
  anyExpiredFrom certs = true <-> exists c, In c certs /\ outsideWindow c.
Proof.
  unfold outsideWindow. induction certs as [|c rest IH]; cbn.
  - split; [discriminate | intros (c & [] & _)].
  - destruct (Z.ltb_spec now (notBefore c - marginMilliseconds)) as [Hlt|Hge].
    + split; [intros _; exists c; auto | reflexivity].
    + rewrite Z.gtb_ltb.
      destruct (Z.ltb_spec (notAfter c + marginMilliseconds) now) as [Hgt|Hle].
      * split; [intros _; exists c; split; [auto | right; lia] | reflexivity].
      * rewrite IH. split.
        -- intros (c' & Hin & Hout). exists c'. auto.
        -- intros (c' & [<- | Hin] & Hout); [lia | exists c'; auto].
Qed.
End StageLemmas.

(** ** The verdicts of the pipeline *)

Section Verdicts.
Context {lib : Libraries} {amb : Ambient}.

(** C2.  Once the synchronous part of the pipeline is through, the outcome
    of the cryptographic [verify] decides as follows: resolved true, the
    result is that of the identity check; resolved false, it is the fraud
    warning for a failed signature; rejected, it is CANNOT_VERIFY with
    "Message cannot be verified: Unknown error."  The codes of the last
    two cases differ. *)
Theorem C2_three_outcomes rawMessage mailId signedData signerEmail buffer :
  ReadyToVerify rawMessage signedData signerEmail buffer ->
  let parser := MimeParser_run rawMessage in
  let result := set_mailId getResultPrototype mailId in
  let outcome := SignedData_verify signedData (verifyParams buffer) in
  (outcome = Fulfilled (JBool true) ->
   verifyMessageSignature rawMessage mailId =
   Fulfilled (identityVerdict parser (set_signer result signerEmail) signerEmail)) /\
  (outcome = Fulfilled (JBool false) ->
   verifyMessageSignature rawMessage mailId =
   Fulfilled (conclude (set_signer result signerEmail) false FRAUD_WARNING
                msg_failedVerification)) /\
  (forall error, outcome = Rejected error ->
   verifyMessageSignature rawMessage mailId =
   Fulfilled (conclude result false CANNOT_VERIFY msg_unknownError)) /\
  (forall r, verifyMessageSignature rawMessage mailId = Fulfilled r ->
     (outcome = Fulfilled (JBool false) -> code r = FRAUD_WARNING) /\
     (forall error, outcome = Rejected error -> code r = CANNOT_VERIFY)) /\
  FRAUD_WARNING <> CANNOT_VERIFY.
Proof.
  intros Hready parser result outcome.
  pose proof (verify_ready rawMessage mailId _ _ _ Hready) as Hrun.
  fold parser result outcome in Hrun.
  assert (Hfalse : outcome = Fulfilled (JBool false) ->
                   verifyMessageSignature rawMessage mailId =
                   Fulfilled (conclude (set_signer result signerEmail) false FRAUD_WARNING
                                msg_failedVerification)).
  { intros Ho. rewrite Hrun, Ho. reflexivity. }
  assert (Hrej : forall error, outcome = Rejected error ->
                 verifyMessageSignature rawMessage mailId =
                 Fulfilled (conclude result false CANNOT_VERIFY msg_unknownError)).
  { intros error Ho. rewrite Hrun, Ho. reflexivity. }
  repeat split.
  - intros Ho. rewrite Hrun, Ho. f_equal. now apply settle_not_failed.
  - exact Hfalse.
  - exact Hrej.
  - intros Ho. rewrite (Hfalse Ho) in H. injection H as <-. reflexivity.
  - intros error Ho. rewrite (Hrej _ Ho) in H. injection H as <-. reflexivity.
  - discriminate.
Qed.

(** C10.  A [verify] that resolves with [undefined] is not a failure: only
    the boolean [false] is; the pipeline goes on to the identity check,
    and when the addresses agree the result is VERIFICATION_OK with
    [success = true]. *)
Theorem C10_undefined_is_not_failure rawMessage mailId signedData signerEmail buffer :
  ReadyToVerify rawMessage signedData signerEmail buffer ->
  SignedData_verify signedData (verifyParams buffer) = Fulfilled JUndefined ->
  let parser := MimeParser_run rawMessage in
  let result := set_signer (set_mailId getResultPrototype mailId) signerEmail in
  (forall v, isVerificationFailed v = true <-> v = JBool false) /\
  verifyMessageSignature rawMessage mailId =
  Fulfilled (identityVerdict parser result signerEmail) /\
  (isFromAddressCorrect parser signerEmail = Ret true ->
   verifyMessageSignature rawMessage mailId =
   Fulfilled {| mailId := mailId; success := true; code := VERIFICATION_OK;
                message := msg_valid; signer := signerEmail |}).
Proof.
  intros Hready Hundef parser result.
  assert (Hrun : verifyMessageSignature rawMessage mailId =
                 Fulfilled (identityVerdict parser result signerEmail)).
  { rewrite (verify_ready _ mailId _ _ _ Hready), Hundef.
    f_equal. now apply settle_not_failed. }
  split; [exact isVerificationFailed_true | split; [exact Hrun |]].
  intros Hfrom. rewrite Hrun. unfold identityVerdict. rewrite Hfrom. reflexivity.
Qed.

(** C3.  When the envelope check passes and the signature decodes, one
    certificate outside its window (widened by the margin) is enough for
    the result to be the fraud warning about expiry, whatever [verify]
    would answer. *)
Theorem C3_expired_certificate rawMessage mailId signedData signerEmail certs :
  let parser := MimeParser_run rawMessage in
  isValidSmimeEmail (node parser) (getNode parser "2") = Ret true ->
  tryDecode (getNode parser "2") = Ret (signedData, signerEmail) ->
  certificates signedData = Some certs ->
  (exists c, In c certs /\ outsideWindow c) ->
  exists r,
    verifyMessageSignature rawMessage mailId = Fulfilled r /\
    code r = FRAUD_WARNING /\ message r = msg_expired /\ success r = false.
Proof.
  intros parser Henv Hdec Hcerts Hout.
  apply anyExpiredFrom_true in Hout.
  unfold verifyMessageSignature; cbv zeta. fold parser.
  rewrite Henv, Hdec.
  unfold isAnyCertificateExpired. rewrite Hcerts, Hout.
  eexists. split; [reflexivity |]. repeat split.
Qed.

(** C5.  When the envelope check passes and the signature part does not
    decode (the BER parser reports offset -1, or the ContentInfo or the
    SignedData cannot be built from it), the promise is fulfilled with the
    fraud warning "Invalid digital signature": it is neither CANNOT_VERIFY
    nor a rejection. *)
Theorem C5_undecodable_signature rawMessage mailId signatureNode bytes :
  let parser := MimeParser_run rawMessage in
  isValidSmimeEmail (node parser) (getNode parser "2") = Ret true ->
  getNode parser "2" = Some signatureNode ->
  content signatureNode = Some bytes ->
  (fst (fromBER bytes) = -1 \/
   (exists e, ContentInfo_content (snd (fromBER bytes)) = Throw e) \/
   (exists c e, ContentInfo_content (snd (fromBER bytes)) = Ret c /\
                SignedData_new c = Throw e)) ->
  exists r,
    verifyMessageSignature rawMessage mailId = Fulfilled r /\
    code r = FRAUD_WARNING /\ message r = msg_invalidSignature /\ success r = false.
Proof.
  intros parser Henv Hnode Hcontent Hbad.
  assert (Hthrow : exists e, tryDecode (getNode parser "2") = Throw e).
  { rewrite Hnode. unfold tryDecode. rewrite Hcontent. cbn [utilConcatBuf exc_bind app].
    unfold getAsn1TypeFromBuffer; cbv zeta.
    destruct Hbad as [Hoff | [(e & Hci) | (c & e & Hci & Hsd)]].
    - rewrite Hoff. cbn. eauto.
    - destruct (fst (fromBER bytes) =? -1); cbn; [eauto |].
      unfold getSignedDataFromAsn1. rewrite Hci. cbn. eauto.
    - destruct (fst (fromBER bytes) =? -1); cbn; [eauto |].
      unfold getSignedDataFromAsn1. rewrite Hci. cbn. rewrite Hsd. cbn. eauto. }
  destruct Hthrow as (e & Hthrow).
  unfold verifyMessageSignature; cbv zeta. fold parser.
  rewrite Henv, Hthrow.
  eexists. split; [reflexivity |]. repeat split.
Qed.
End Verdicts.

(** ** The signer address *)

Section SignerAddress.
Context {lib : Libraries} {amb : Ambient}.

Lemma strict_eq_true a b : strict_eq a b = true -> a = b.
Proof.
  destruct a, b; cbn; try discriminate; intros H; f_equal.
  - now apply Bool.eqb_prop.
  - now apply Z.eqb_eq.
  - now apply String.eqb_eq.
Qed.

Lemma strict_eq_strings a b : strict_eq (JStr a) (JStr b) = true <-> a = b.
Proof. cbn. apply String.eqb_eq. Qed.

Lemma scanSubject_last acc tvs :
  scanSubject acc tvs =
  match last (List.filter isEmailAttribute tvs) with
  | Some tv => JStr (atv_value tv)
  | None => acc
  end.
Proof.
  unfold scanSubject. revert acc.
  induction tvs as [|tv rest IH]; intros acc; [reflexivity |].
  cbn [fold_left List.filter]. rewrite IH.
  fold (isEmailAttribute tv).
  destruct (isEmailAttribute tv); [| reflexivity].
  rewrite last_cons.
  now destruct (last (List.filter isEmailAttribute rest)).
Qed.

Lemma scanCertificates_last certs acc :
  fold_left (fun acc cert => scanSubject acc (subject cert)) certs acc =
  match last (List.filter isEmailAttribute (concat (map subject certs))) with
  | Some tv => JStr (atv_value tv)
  | None => acc
  end.
Proof.
  revert acc. induction certs as [|c rest IH]; intros acc; [reflexivity |].
  cbn [fold_left map concat]. rewrite IH, scanSubject_last.
  rewrite List.filter_app, last_app.
  now destruct (last (List.filter isEmailAttribute (concat (map subject rest)))).
Qed.

Lemma fetchSignerEmail_last signedData signerEmail :
  fetchSignerEmail signedData = Ret signerEmail ->
  exists certs,
    certificates signedData = Some certs /\ signerEmail = lastEmailAttribute certs.
Proof.
  unfold fetchSignerEmail.
  destruct (certificates signedData) as [certs|]; [| discriminate].
  intros [= <-]. exists certs. split; [reflexivity |].
  apply scanCertificates_last.
Qed.

Lemma tryDecode_signer signatureNode signedData signerEmail :
  tryDecode signatureNode = Ret (signedData, signerEmail) ->
  fetchSignerEmail signedData = Ret signerEmail.
Proof.
  unfold tryDecode. destruct signatureNode as [sn|]; [| discriminate].
  destruct (utilConcatBuf [] (content sn)) as [buf|]; [| discriminate].
  cbn [exc_bind].
  destruct (getAsn1TypeFromBuffer buf) as [asn1|]; [| discriminate].
  cbn [exc_bind].
  destruct (getSignedDataFromAsn1 asn1) as [cms|]; [| discriminate].
  cbn [exc_bind].
  destruct (fetchSignerEmail cms) as [email|] eqn:Hfetch; [| discriminate].
  cbn [exc_bind]. intros [= <- <-]. exact Hfetch.
Qed.

Lemma lastEmailAttribute_shape certs :
  lastEmailAttribute certs = JNull \/ exists a, lastEmailAttribute certs = JStr a.
Proof.
  unfold lastEmailAttribute.
  destruct (last _) as [tv|]; [right; eauto | left; reflexivity].
Qed.

Lemma isFromAddressCorrect_mailbox parser signerEmail mailbox :
  firstFromMailbox parser = Some mailbox ->
  isFromAddressCorrect parser signerEmail =
  Ret (strict_eq (from_option JStr JUndefined (mb_address mailbox)) signerEmail).
Proof.
  unfold firstFromMailbox, isFromAddressCorrect.
  destruct (headers (node parser) !! "from") as [entries|]; [| discriminate].
  destruct (entries !! 0%nat) as [entry|]; [| discriminate].
  intros ->. reflexivity.
Qed.

Lemma isFromAddressCorrect_true parser signerEmail :
  isFromAddressCorrect parser signerEmail = Ret true ->
  exists mailbox,
    firstFromMailbox parser = Some mailbox /\
    from_option JStr JUndefined (mb_address mailbox) = signerEmail.
Proof.
  unfold firstFromMailbox, isFromAddressCorrect.
  destruct (headers (node parser) !! "from") as [entries|]; [| discriminate].
  destruct (entries !! 0%nat) as [entry|]; [| discriminate].
  destruct (he_value entry !! 0%nat) as [mailbox|]; [| discriminate].
  intros [= H]. exists mailbox. split; [reflexivity |]. now apply strict_eq_true.
Qed.

End SignerAddress.

(** ** The invariant on the result *)

Section ResultInvariant.
Context {lib : Libraries} {amb : Ambient}.

Lemma settle_cases parser result signerEmail p :
  let r := settle parser result signerEmail p in
  (r = conclude (set_signer result signerEmail) false FRAUD_WARNING msg_failedVerification) \/
  (r = conclude (set_signer result signerEmail) false FRAUD_WARNING msg_fromMismatch) \/
  (r = conclude (set_signer result signerEmail) true VERIFICATION_OK msg_valid /\
   isFromAddressCorrect parser signerEmail = Ret true) \/
  (r = conclude (set_signer result signerEmail) false CANNOT_VERIFY msg_unknownError) \/
  (r = conclude result false CANNOT_VERIFY msg_unknownError).
Proof.
  cbv zeta. destruct p as [v|e]; cbn [settle].
  - unfold thenHandler; cbv zeta.
    destruct (isVerificationFailed v); [now left |].
    destruct (isFromAddressCorrect parser signerEmail) as [[|]|]; auto 6.
  - auto 6.
Qed.

(** C6 (amended).  For every result the service returns: [success = true]
    only with VERIFICATION_OK; with VERIFICATION_OK the signer is the
    address extracted from the certificates, a string equal to the address
    of the first [From] mailbox; with the fraud warnings for a failed
    signature and for an address mismatch the signer is the value extracted
    from the certificates (possibly [null]); with the fraud warnings for an
    undecodable signature and for an expired certificate, and with
    CANNOT_VERIFY for a message that is not signed, the signer is left as
    the prototype has it, the empty string. *)
Theorem C6_signer_and_success rawMessage mailId r :
  verifyMessageSignature rawMessage mailId = Fulfilled r ->
  let parser := MimeParser_run rawMessage in
  let decoded := tryDecode (getNode parser "2") in
  (success r = true -> code r = VERIFICATION_OK) /\
  (code r = VERIFICATION_OK ->
   exists signedData a mailbox,
     decoded = Ret (signedData, JStr a) /\ signer r = JStr a /\
     firstFromMailbox parser = Some mailbox /\ mb_address mailbox = Some a) /\
  (code r = FRAUD_WARNING ->
   (message r = msg_invalidSignature /\ signer r = signer getResultPrototype /\
    exists e, decoded = Throw e) \/
   (message r = msg_expired /\ signer r = signer getResultPrototype /\
    exists signedData signerEmail,
      decoded = Ret (signedData, signerEmail) /\
      isAnyCertificateExpired signedData = Ret true) \/
   ((message r = msg_failedVerification \/ message r = msg_fromMismatch) /\
    exists signedData, decoded = Ret (signedData, signer r))) /\
  (code r = CANNOT_VERIFY ->
   (message r = msg_notSigned /\ signer r = signer getResultPrototype /\
    isValidSmimeEmail (node parser) (getNode parser "2") = Ret false) \/
   (message r = msg_unknownError /\
    exists signedData signerEmail, decoded = Ret (signedData, signerEmail))) /\
  signer getResultPrototype = JStr "".
Proof.
  intros Hrun parser decoded.
  unfold verifyMessageSignature in Hrun; cbv zeta in Hrun.
  fold parser in Hrun. fold decoded in Hrun.
  destruct (isValidSmimeEmail (node parser) (getNode parser "2")) as [[|]|] eqn:Henv;
    [| injection Hrun as <-; cbn; repeat split; try discriminate; intros _; left; auto
     | discriminate].
  destruct decoded as [[signedData signerEmail]|e] eqn:Hdec;
    [| injection Hrun as <-; cbn; repeat split; try discriminate;
       intros _; left; eauto].
  destruct (isAnyCertificateExpired signedData) as [[|]|] eqn:Hexp;
    [ injection Hrun as <-; cbn; repeat split; try discriminate;
      intros _; right; left; eauto 6
    | | discriminate].
  destruct (signedDataBuffer parser) as [buffer|]; [| discriminate].
  injection Hrun as <-.
  destruct (settle_cases parser (set_mailId getResultPrototype mailId) signerEmail
              (SignedData_verify signedData
                 {| vp_signer := 0; vp_data := buffer; vp_checkChain := false |}))
    as [-> | [-> | [[-> Hfrom] | [-> | ->]]]]; cbn.
  - repeat split; try discriminate. intros _. right; right. eauto.
  - repeat split; try discriminate. intros _. right; right. eauto.
  - repeat split; try discriminate. intros _.
    apply isFromAddressCorrect_true in Hfrom as (mailbox & Hmb & Haddr).
    apply tryDecode_signer, fetchSignerEmail_last in Hdec as Hlast.
    destruct Hlast as (certs & _ & Hshape).
    destruct (mb_address mailbox) as [a|] eqn:Ha; cbn in Haddr.
    + subst signerEmail. exists signedData, a, mailbox. auto.
    + exfalso. subst signerEmail.
      destruct (lastEmailAttribute_shape certs) as [H | (a & H)]; congruence.
  - repeat split; try discriminate. intros _. right. eauto.
  - repeat split; try discriminate. intros _. right. eauto.
Qed.
End ResultInvariant.

(** ** Line endings of the signed body *)

Section LineEndings.
Context {lib : Libraries} {amb : Ambient}.


Lemma replace_head_not_LF s c rest :
  replace_LF_with_CRLF s = String c rest -> Ascii.eqb c LF = false.
Proof.
  destruct s as [|d s']; [discriminate |].
  cbn [replace_LF_with_CRLF].
  destruct (Ascii.eqb d LF) eqn:Hd.
  - intros [= <- _]. reflexivity.
  - intros [= <- _]. exact Hd.
Qed.

Lemma replace_CRLF_with_LF_replace s :
  replace_CRLF_with_LF (replace_LF_with_CRLF s) = s.
Proof.
  induction s as [|c rest IH]; [reflexivity |].
  cbn [replace_LF_with_CRLF].
  destruct (Ascii.eqb c LF) eqn:Hc.
  - apply Ascii.eqb_eq in Hc. subst c.
    cbn [replace_CRLF_with_LF]. cbn [Ascii.eqb CR LF Bool.eqb andb].
    now rewrite IH.
  - cbn [replace_CRLF_with_LF].
    destruct (replace_LF_with_CRLF rest) as [|c' rest'] eqn:Hrest.
    + cbn in IH. now subst rest.
    + rewrite (replace_head_not_LF _ _ _ Hrest), andb_false_r.
      now rewrite IH.
Qed.




End LineEndings.

(** ** The envelope check *)

Section Envelope.
Import smimeSpecificationConstants.

Lemma Array_indexOf_from_found i l x :
  0 <= i ->
  Array_indexOf_from i l x <> -1 <-> exists s, x = JStr s /\ In s l.
Proof.
  revert i. induction l as [|e rest IH]; intros i Hi; cbn [Array_indexOf_from].
  - split; [intros H; now contradict H | intros (s & _ & [])].
  - destruct (strict_eq (JStr e) x) eqn:Heq.
    + split; [| lia]. intros _. exists e.
      apply strict_eq_true in Heq. split; [now symmetry | now left].
    + rewrite IH by lia. split.
      * intros (s & Hx & Hin). exists s. split; [exact Hx | now right].
      * intros (s & Hx & [He | Hin]); [| exists s; auto].
        subst. cbn in Heq. rewrite String.eqb_refl in Heq. discriminate.
Qed.

(** C8 (amended).  The check of the [micalg] parameter passes exactly when
    the parameter is a string equal, character for character, to one of
    md5, sha-1, sha-224, sha-256, sha-384, sha-512, unknown. *)
Theorem C8_micalg_exact rootNode m :
  contentType_param rootNode "micalg" = Ret m ->
  isRootNodeContentTypeMicalgCorrect rootNode = Ret true <->
  exists s, m = JStr s /\
            In s ["md5"; "sha-1"; "sha-224"; "sha-256"; "sha-384"; "sha-512"; "unknown"].
Proof.
  intros Hm. unfold isRootNodeContentTypeMicalgCorrect. rewrite Hm. cbn [exc_bind].
  change ["md5"; "sha-1"; "sha-224"; "sha-256"; "sha-384"; "sha-512"; "unknown"]
    with rootNodeContentTypeMessageIntegrityCheckAlgorithms.
  rewrite <- (Array_indexOf_from_found 0) by lia.
  fold (Array_indexOf rootNodeContentTypeMessageIntegrityCheckAlgorithms m).
  destruct (Z.eqb_spec (Array_indexOf rootNodeContentTypeMessageIntegrityCheckAlgorithms m) (-1))
    as [Heq | Hne]; cbn [negb].
  - split; [discriminate | intros H; now contradict H].
  - split; [intros _; exact Hne | reflexivity].
Qed.
End Envelope.

(** ** Independence of calls *)

Section Independence.
Context {lib : Libraries} {olib : OcspLibraries}.
Variable OCSPRequest_toBER : OcspRequest -> Exc ArrayBuffer.
Hypothesis toBER_nonceBlind : nonceBlind OCSPRequest_toBER.

Import ServiceOcsp.

Lemma tryBlock_sameOutcome signatureNode w w' :
  sameOutcome (fst (tryBlock OCSPRequest_toBER signatureNode w))
              (fst (tryBlock OCSPRequest_toBER signatureNode w')).
Proof.
  unfold tryBlock.
  destruct signatureNode as [sn|]; [| exact I].
  destruct (exc_bind _ _) as [cms|e]; [| exact I].
  destruct (from_option _ _ _) as [cert0|]; [| exact I].
  destruct (issuer cert0 !! 3%nat) as [issuerAttribute|]; [| exact I].
  destruct (nonceGenerator 32 (rng w)) as [nonce g].
  destruct (nonceGenerator 32 (rng w')) as [nonce' g'].
  cbv zeta. cbn [ocspReqBuffer rng console].
  match goal with
  | |- context [OCSPRequest_toBER ?r] =>
      match r with
      | context [nonce] =>
          pose proof (toBER_nonceBlind r
                        ("1.3.6.1.5.5.7.48.1.2", OctetString_toBER nonce)
                        ("1.3.6.1.5.5.7.48.1.2", OctetString_toBER nonce')) as Hblind
      end
  end.
  unfold with_nonceExtension in Hblind. cbn in Hblind.
  destruct (OCSPRequest_toBER _) as [ber|e];
    destruct (OCSPRequest_toBER _) as [ber'|e']; cbn in Hblind; try discriminate;
    [| exact I].
  destruct (subject cert0 !! 0%nat); cbn; [reflexivity | exact I].
Qed.

Lemma settle_fst parser result signerEmail p w w' :
  fst (settle parser result signerEmail p w) = fst (settle parser result signerEmail p w').
Proof.
  unfold settle. destruct p as [v|e]; [| reflexivity].
  now destruct (thenHandler parser result signerEmail v) as [r [e|]].
Qed.

Lemma verifyMessageSignature_fst rawMessage mailId w w' :
  fst (verifyMessageSignature OCSPRequest_toBER rawMessage mailId w) =
  fst (verifyMessageSignature OCSPRequest_toBER rawMessage mailId w').
Proof.
  unfold verifyMessageSignature; cbv zeta.
  destruct (isValidSmimeEmail _ _) as [[|]|]; [| reflexivity | reflexivity].
  pose proof (tryBlock_sameOutcome
                (getNode (MimeParser_run rawMessage) "2") w w') as Hsame.
  destruct (tryBlock _ _ w) as [[[cms email]|e] w1];
    destruct (tryBlock _ _ w') as [[[cms' email']|e'] w1'];
    cbn in Hsame; try contradiction; [| reflexivity].
  injection Hsame as <- <-.
  destruct (signedDataBuffer _) as [buffer|]; [| reflexivity].
  pose proof (settle_fst (MimeParser_run rawMessage)
                (set_mailId getResultPrototype mailId) email
                (SignedData_verify cms
                   {| vp_signer := 0; vp_data := buffer; vp_checkChain := true |})
                w1 w1') as Hfst.
  destruct (settle _ _ _ _ w1) as [r v1]; destruct (settle _ _ _ _ w1') as [r' v1'].
  cbn in Hfst |- *. now subst.
Qed.

(** C9.  In the revision that keeps state on the service object, the
    promise a call returns does not depend on the world the call starts
    from (the [ocspReqBuffer] field, the random generator, the console):
    two calls with the same message and identifier settle alike, whether
    they start from unrelated worlds or the second starts from the world
    the first one left.  The other revision has no field to share: there
    the result is a function of the message and the identifier. *)
Theorem C9_calls_are_independent rawMessage mailId w w' :
  fst (verifyMessageSignature OCSPRequest_toBER rawMessage mailId w) =
  fst (verifyMessageSignature OCSPRequest_toBER rawMessage mailId w') /\
  (let (first, w1) := verifyMessageSignature OCSPRequest_toBER rawMessage mailId w in
   let (second, _) := verifyMessageSignature OCSPRequest_toBER rawMessage mailId w1 in
   first = second).
Proof.
  split; [apply verifyMessageSignature_fst |].
  destruct (verifyMessageSignature OCSPRequest_toBER rawMessage mailId w) as [first w1] eqn:H1.
  destruct (verifyMessageSignature OCSPRequest_toBER rawMessage mailId w1) as [second w2] eqn:H2.
  pose proof (verifyMessageSignature_fst rawMessage mailId w w1) as H.
  rewrite H1, H2 in H. exact H.
Qed.
End Independence.

(** ** Runs on concrete messages *)

Section Runs.
Import Fixtures.
Import smimeSpecificationConstants.

Lemma alice_ready v :
  @ReadyToVerify (aliceLibrary v) inTime "raw" (Some [aliceCertificate]) (JStr alice) bodyBuffer.
Proof. repeat split; reflexivity. Defined.

(** A message that fails the envelope check is answered with
    CANNOT_VERIFY, "Message is not digitally signed." and an empty signer. *)
Lemma not_signed_verdict {lib : Libraries} {amb : Ambient} rawMessage mailId :
  isValidSmimeEmail (node (MimeParser_run rawMessage))
    (getNode (MimeParser_run rawMessage) "2") = Ret false ->
  verifyMessageSignature rawMessage mailId =
  Fulfilled {| mailId := mailId; success := false; code := CANNOT_VERIFY;
               message := msg_notSigned; signer := JStr "" |}.
Proof.
  intros Henv. unfold verifyMessageSignature; cbv zeta. now rewrite Henv.
Qed.

(** C1.  The envelope carries Alice's certificate first and Mallory's
    second, [verify] resolves true and the message says it is from Mallory.
    The address of the first certificate's subject is Alice's and differs
    from the [From] address, yet [fetchSignerEmail], which keeps the last
    e-mail address attribute of any certificate, returns Mallory's: the
    verdict is VERIFICATION_OK with Mallory as signer, where the fraud
    warning about the "From" address is due. *)
Theorem C1_last_certificate_decides :
  @firstCertificateEmail twoCertificateLibrary inTime
    (Some [aliceCertificate; malloryCertificate]) = Some alice /\
  firstFromMailbox (@MimeParser_run twoCertificateLibrary "raw") = Some malloryMailbox /\
  mb_address malloryMailbox <> Some alice /\
  @SignedData_verify twoCertificateLibrary (Some [aliceCertificate; malloryCertificate])
    (verifyParams bodyBuffer) = Fulfilled (JBool true) /\
  @fetchSignerEmail twoCertificateLibrary inTime
    (Some [aliceCertificate; malloryCertificate]) = Ret (JStr mallory) /\
  @verifyMessageSignature twoCertificateLibrary inTime "raw" "id" =
  Fulfilled {| mailId := "id"; success := true; code := VERIFICATION_OK;
               message := msg_valid; signer := JStr mallory |}.
Proof.
  repeat split; try reflexivity.
  intros Hne. vm_compute in Hne. discriminate.
Qed.

(** On the same message the identity check as the specification has it
    does not hold. *)
Lemma identityCheck_asSpecified_fails :
  ~ @identityCheck_asSpecified twoCertificateLibrary inTime "raw" "id".
Proof.
  intros H.
  destruct (H (Some [aliceCertificate; malloryCertificate]) (JStr mallory) bodyBuffer
              alice malloryMailbox) as (r & Hr & Hcode & _).
  - repeat split; reflexivity.
  - reflexivity.
  - reflexivity.
  - reflexivity.
  - intros Hne. vm_compute in Hne. discriminate.
  - vm_compute in Hr. injection Hr as <-. discriminate.
Qed.

Lemma C2_three_outcomes_witness :
  @ReadyToVerify aliceLibraryRejecting inTime "raw" (Some [aliceCertificate])
    (JStr alice) bodyBuffer /\
  @verifyMessageSignature aliceLibraryRejecting inTime "raw" "id" =
  Fulfilled {| mailId := "id"; success := false; code := CANNOT_VERIFY;
               message := msg_unknownError; signer := JStr "" |}.
Proof.
  assert (Hready : @ReadyToVerify aliceLibraryRejecting inTime "raw"
                     (Some [aliceCertificate]) (JStr alice) bodyBuffer)
    by (repeat split; reflexivity).
  split; [exact Hready |].
  exact (proj1 (proj2 (proj2
           (@C2_three_outcomes aliceLibraryRejecting inTime "raw" "id" _ _ _ Hready)))
           (LibraryError "Unsupported algorithm") eq_refl).
Defined.

Lemma C3_expired_certificate_witness :
  (exists c, In c [aliceCertificate] /\ @outsideWindow tooLate c) /\
  exists r,
    @verifyMessageSignature (aliceLibrary (JBool true)) tooLate "raw" "id" = Fulfilled r /\
    code r = FRAUD_WARNING /\ message r = msg_expired /\ success r = false.
Proof.
  assert (Hout : exists c, In c [aliceCertificate] /\ @outsideWindow tooLate c).
  { exists aliceCertificate. split; [now left |]. right. vm_compute. reflexivity. }
  split; [exact Hout |].
  exact (@C3_expired_certificate (aliceLibrary (JBool true)) tooLate "raw" "id"
           (Some [aliceCertificate]) (JStr alice) [aliceCertificate]
           eq_refl eq_refl eq_refl Hout).
Defined.

(** C4.  A message whose root content type is [multipart/sign], a proper
    prefix of [multipart/signed], passes the envelope check, because the
    check searches the constant for the value as a substring; with the
    rest of the message in order the verdict is VERIFICATION_OK and not
    CANNOT_VERIFY. *)
Theorem C4_truncated_content_type_passes :
  contentType_value (node truncatedTypeMessage) = Ret "multipart/sign" /\
  "multipart/sign" <> rootNodeContentTypeValue /\
  isRootNodeContentTypeValueCorrect (node truncatedTypeMessage) = Ret true /\
  isValidSmimeEmail (node truncatedTypeMessage) (getNode truncatedTypeMessage "2") = Ret true /\
  @verifyMessageSignature truncatedTypeLibrary inTime "raw" "id" =
  Fulfilled {| mailId := "id"; success := true; code := VERIFICATION_OK;
               message := msg_valid; signer := JStr alice |}.
Proof.
  repeat split; try reflexivity. discriminate.
Qed.

Lemma C5_undecodable_signature_witness :
  fst (@fromBER aliceLibraryNoBER (stringToArrayBuffer "0")) = -1 /\
  exists r,
    @verifyMessageSignature aliceLibraryNoBER inTime "raw" "id" = Fulfilled r /\
    code r = FRAUD_WARNING /\ message r = msg_invalidSignature /\ success r = false.
Proof.
  split; [reflexivity |].
  exact (@C5_undecodable_signature aliceLibraryNoBER inTime "raw" "id"
           signatureNode (stringToArrayBuffer "0") eq_refl eq_refl eq_refl
           (or_introl eq_refl)).
Defined.

Lemma C6_signer_and_success_witness :
  @verifyMessageSignature (aliceLibrary (JBool true)) inTime "raw" "id" =
  Fulfilled {| mailId := "id"; success := true; code := VERIFICATION_OK;
               message := msg_valid; signer := JStr alice |} /\
  exists signedData a mailbox,
    @tryDecode (aliceLibrary (JBool true)) inTime (getNode aliceMessage "2") =
    Ret (signedData, JStr a) /\
    JStr alice = JStr a /\
    firstFromMailbox aliceMessage = Some mailbox /\ mb_address mailbox = Some a.
Proof.
  split; [reflexivity |].
  exact (proj1 (proj2
           (@C6_signer_and_success (aliceLibrary (JBool true)) inTime "raw" "id" _ eq_refl))
           eq_refl).
Defined.

(** The certificate has expired, the signature decoded, and the signer of
    the fraud warning is the empty string. *)
Lemma C6_expiry_counterexample :
  ~ @signerInvariant_asSpecified (aliceLibrary (JBool true)) tooLate "raw" "id".
Proof.
  intros H. unfold signerInvariant_asSpecified in H; cbv zeta in H.
  destruct (H {| mailId := "id"; success := false; code := FRAUD_WARNING;
                 message := msg_expired; signer := JStr "" |} eq_refl)
    as (_ & Hfraud & _).
  destruct Hfraud as (s & Hs & Hne).
  - reflexivity.
  - exists (Some [aliceCertificate]), (JStr alice). reflexivity.
  - cbn in Hs. injection Hs as <-. now apply Hne.
Qed.


Lemma C8_micalg_exact_witness :
  contentType_param (node aliceMessage) "micalg" = Ret (JStr "sha-256") /\
  (isRootNodeContentTypeMicalgCorrect (node aliceMessage) = Ret true <->
   exists s, JStr "sha-256" = JStr s /\
             In s ["md5"; "sha-1"; "sha-224"; "sha-256"; "sha-384"; "sha-512"; "unknown"]).
Proof.
  split; [reflexivity |].
  exact (C8_micalg_exact (node aliceMessage) (JStr "sha-256") eq_refl).
Defined.

(** [SHA-256] is a casing variant of a member of the set, and the check
    does not pass. *)
Lemma C8_upper_case_counterexample : ~ micalgCheck_asSpecified upperCaseMicalgRoot.
Proof.
  intros H. destruct (H "SHA-256" eq_refl) as [_ Hpass].
  assert (Hin : In (toLowerCase "SHA-256") rootNodeContentTypeMessageIntegrityCheckAlgorithms)
    by (vm_compute; auto 10).
  specialize (Hpass Hin). vm_compute in Hpass. discriminate.
Qed.

Lemma C9_calls_are_independent_witness :
  nonceBlind encodeOcsp /\
  fst (@ServiceOcsp.verifyMessageSignature (aliceLibrary (JBool true)) (countingOcsp _)
         encodeOcsp "raw" "id"
         (@ServiceOcsp.constructor _ (countingOcsp _) 0%nat)) =
  fst (@ServiceOcsp.verifyMessageSignature (aliceLibrary (JBool true)) (countingOcsp _)
         encodeOcsp "raw" "id"
         (@ServiceOcsp.mkWorld _ (countingOcsp _) (stringToArrayBuffer "stale") 7%nat
            [LogString "earlier call"])).
Proof.
  assert (Hblind : nonceBlind encodeOcsp) by (intros req ext ext'; reflexivity).
  split; [exact Hblind |].
  exact (proj1 (@C9_calls_are_independent (aliceLibrary (JBool true)) (countingOcsp _)
                  encodeOcsp Hblind "raw" "id" _ _)).
Defined.

Lemma C10_undefined_is_not_failure_witness :
  @SignedData_verify (aliceLibrary JUndefined) (Some [aliceCertificate])
    (verifyParams bodyBuffer) = Fulfilled JUndefined /\
  @verifyMessageSignature (aliceLibrary JUndefined) inTime "raw" "id" =
  Fulfilled {| mailId := "id"; success := true; code := VERIFICATION_OK;
               message := msg_valid; signer := JStr alice |}.
Proof.
  split; [reflexivity |].
  exact (proj2 (proj2
           (@C10_undefined_is_not_failure (aliceLibrary JUndefined) inTime "raw" "id"
              _ _ _ (alice_ready JUndefined) eq_refl))
           eq_refl).
Defined.
End Runs.

(** ** More on the envelope check *)

Section EnvelopeDetails.
Import smimeSpecificationConstants.

Lemma prefix_iff_app p s : String.prefix p s = true <-> exists post, s = p ++ post.
Proof.
  rewrite String.prefix_correct. revert s.
  induction p as [|a p IH]; intros s.
  - cbn. split; [intros _; now exists s | intros _; now destruct s].
  - destruct s as [|b s]; cbn.
    + split; [discriminate | intros (post & H); discriminate].
    + split.
      * intros [= -> H]. apply IH in H as (post & ->). now exists post.
      * intros (post & [= -> ->]). f_equal. apply IH. now exists post.
Qed.

Lemma index_found_iff p s :
  (exists n, String.index 0 p s = Some n) <-> exists pre post, s = pre ++ p ++ post.
Proof.
  induction s as [|b s IH].
  - cbn. split.
    + destruct p; [| intros (n & H); discriminate]. intros _. now exists "", "".
    + intros (pre & post & H).
      destruct pre; [| discriminate]. destruct p; [| discriminate]. now exists O.
  - cbn [String.index].
    destruct (String.prefix p (String b s)) eqn:Hpre.
    + split; [| intros _; now exists O].
      intros _. apply prefix_iff_app in Hpre as (post & ->). now exists "", post.
    + split.
      * intros (n & H).
        destruct (String.index 0 p s) as [m|] eqn:Hidx; [| discriminate].
        destruct (proj1 IH (ex_intro _ m eq_refl)) as (pre & post & ->).
        now exists (String b pre), post.
      * intros (pre & post & H).
        destruct pre as [|c pre].
        -- cbn in H. assert (String.prefix p (String b s) = true) as Habs
             by (apply prefix_iff_app; now exists post).
           congruence.
        -- injection H as -> ->.
           destruct (proj2 IH (ex_intro _ pre (ex_intro _ post eq_refl))) as (m & ->).
           now exists (S m).
Qed.

Lemma String_indexOf_found s pat : String_indexOf s pat <> -1 <-> occursIn pat s.
Proof.
  unfold String_indexOf, occursIn. rewrite <- index_found_iff.
  destruct (String.index 0 pat s) as [n|].
  - split; [intros _; now exists n | lia].
  - split; [intros H; now contradict H | intros (n & H); discriminate].
Qed.
End EnvelopeDetails.

Section EnvelopeCharacterisation.
Import smimeSpecificationConstants.

Lemma indexOf_check_string s v :
  negb (String_indexOf s v =? -1) = true <-> occursIn v s.
Proof.
  rewrite <- String_indexOf_found, negb_true_iff, Z.eqb_neq. reflexivity.
Qed.

Lemma strict_eq_param o c :
  strict_eq (from_option JStr JUndefined o) (JStr c) = true <-> o = Some c.
Proof.
  destruct o as [s|]; cbn.
  - rewrite String.eqb_eq. split; [now intros -> | now intros [= ->]].
  - split; discriminate.
Qed.

Lemma indexOf_check_array l m :
  negb (Array_indexOf l m =? -1) = true <-> exists s, m = JStr s /\ In s l.
Proof.
  rewrite negb_true_iff, Z.eqb_neq. apply Array_indexOf_from_found. lia.
Qed.

Lemma indexOf_check_param l o :
  negb (Array_indexOf l (from_option JStr JUndefined o) =? -1) = true <->
  exists s, o = Some s /\ In s l.
Proof.
  rewrite indexOf_check_array. destruct o as [s|]; cbn.
  - split; intros (s' & H & Hin); exists s'; split; congruence.
  - split; intros (s' & H & _); discriminate.
Qed.

Lemma indexOf_check_value l v :
  negb (Array_indexOf l (JStr v) =? -1) = true <-> In v l.
Proof.
  rewrite indexOf_check_array. split.
  - now intros (s & [= <-] & Hin).
  - intros Hin. now exists v.
Qed.

(** The three tests on the root node as booleans, once its content type
    and parameters are known to be there. *)
Lemma isValidSmimeEmail_unfold rootNode ct params kids sn :
  contentType rootNode = Some ct ->
  ct_params ct = Some params ->
  _childNodes rootNode = Some kids ->
  isValidSmimeEmail rootNode (Some sn) =
  if negb (String_indexOf rootNodeContentTypeValue (ct_value ct) =? -1)
     && strict_eq (from_option JStr JUndefined (params !! "protocol"))
          (JStr rootNodeContentTypeProtocol)
     && negb (Array_indexOf rootNodeContentTypeMessageIntegrityCheckAlgorithms
                (from_option JStr JUndefined (params !! "micalg")) =? -1)
  then isSignatureNodeContentTypeValueCorrect sn
  else Ret false.
Proof.
  intros Hct Hparams Hkids.
  unfold isValidSmimeEmail. rewrite Hct, Hparams, Hkids.
  unfold isRootNodeContentTypeValueCorrect, isRootNodeContentTypeProtocolCorrect,
    isRootNodeContentTypeMicalgCorrect, contentType_value, contentType_param.
  rewrite Hct, Hparams. cbn [exc_bind and_then].
  unfold and_then; cbn [exc_bind].
  destruct (negb (String_indexOf _ _ =? -1)); cbn [exc_bind andb]; [| reflexivity].
  destruct (strict_eq _ _); cbn [exc_bind andb]; [| reflexivity].
  destruct (negb (Array_indexOf _ _ =? -1)); reflexivity.
Qed.

Lemma rootAccepted_checks rootNode ct params kids :
  contentType rootNode = Some ct ->
  ct_params ct = Some params ->
  _childNodes rootNode = Some kids ->
  negb (String_indexOf rootNodeContentTypeValue (ct_value ct) =? -1)
  && strict_eq (from_option JStr JUndefined (params !! "protocol"))
       (JStr rootNodeContentTypeProtocol)
  && negb (Array_indexOf rootNodeContentTypeMessageIntegrityCheckAlgorithms
             (from_option JStr JUndefined (params !! "micalg")) =? -1) = true <->
  rootAccepted rootNode.
Proof.
  intros Hct Hparams Hkids.
  rewrite !andb_true_iff, indexOf_check_string, strict_eq_param, indexOf_check_param.
  unfold rootAccepted. split.
  - intros [[H1 H2] H3]. exists ct, params, kids. auto 7.
  - intros (ct' & params' & kids' & Hct' & Hparams' & _ & H1 & H2 & H3).
    rewrite Hct in Hct'. injection Hct' as <-.
    rewrite Hparams in Hparams'. injection Hparams' as <-. auto.
Qed.

Lemma rootAccepted_fields rootNode :
  rootAccepted rootNode ->
  exists ct params kids,
    contentType rootNode = Some ct /\ ct_params ct = Some params /\
    _childNodes rootNode = Some kids.
Proof. intros (ct & params & kids & H1 & H2 & H3 & _). eauto 7. Qed.

(** X1.  The test of the root content type passes exactly when the value
    occurs somewhere inside "multipart/signed": the value itself, and also
    the empty string and every other fragment of it. *)
Theorem rootContentType_accepts_fragments rootNode :
  isRootNodeContentTypeValueCorrect rootNode = Ret true <->
  exists ct, contentType rootNode = Some ct /\
             occursIn (ct_value ct) "multipart/signed".
Proof.
  unfold isRootNodeContentTypeValueCorrect, contentType_value.
  destruct (contentType rootNode) as [ct|]; cbn [exc_bind].
  - change "multipart/signed" with rootNodeContentTypeValue. split.
    + intros [= H]. apply indexOf_check_string in H. eauto.
    + intros (ct' & [= <-] & H). apply indexOf_check_string in H. now rewrite H.
  - split; [discriminate | intros (ct & H & _); discriminate].
Qed.

(** X2.  The envelope check answers true exactly when the root node has a
    content type with parameters and a list of children (possibly empty),
    its content type value occurs in "multipart/signed", its [protocol]
    parameter is "application/pkcs7-signature", its [micalg] parameter is
    one of the seven names, and node "2" exists with a content type that
    is one of the two signature types. *)
Theorem isValidSmimeEmail_true_iff rootNode signatureNode :
  isValidSmimeEmail rootNode signatureNode = Ret true <->
  rootAccepted rootNode /\
  exists sn sct,
    signatureNode = Some sn /\ contentType sn = Some sct /\
    In (ct_value sct) ["application/x-pkcs7-signature"; "application/pkcs7-signature"].
Proof.
  change ["application/x-pkcs7-signature"; "application/pkcs7-signature"]
    with signatureNodeContentTypeValues.
  split.
  - intros H.
    assert (Hfields : exists ct params kids sn,
               contentType rootNode = Some ct /\ ct_params ct = Some params /\
               _childNodes rootNode = Some kids /\ signatureNode = Some sn).
    { unfold isValidSmimeEmail in H.
      destruct (contentType rootNode) as [ct|]; [| discriminate].
      destruct (ct_params ct) as [params|] eqn:Hp; [| discriminate].
      destruct (_childNodes rootNode) as [kids|]; [| discriminate].
      destruct signatureNode as [sn|]; [| discriminate].
      exists ct, params, kids, sn. auto. }
    destruct Hfields as (ct & params & kids & sn & Hct & Hparams & Hkids & ->).
    rewrite (isValidSmimeEmail_unfold _ _ _ _ _ Hct Hparams Hkids) in H.
    destruct (_ && _ && _) eqn:Hroot; [| discriminate].
    split; [now apply (rootAccepted_checks _ _ _ _ Hct Hparams Hkids) |].
    unfold isSignatureNodeContentTypeValueCorrect, contentType_value in H.
    destruct (contentType sn) as [sct|] eqn:Hsct; [| discriminate].
    cbn [exc_bind] in H. injection H as H.
    exists sn, sct. split; [reflexivity | split; [exact Hsct |]].
    now apply indexOf_check_value.
  - intros (Hroot & sn & sct & -> & Hsct & Hin).
    destruct (rootAccepted_fields _ Hroot) as (ct & params & kids & Hct & Hparams & Hkids).
    rewrite (isValidSmimeEmail_unfold _ _ _ _ _ Hct Hparams Hkids).
    apply (rootAccepted_checks _ _ _ _ Hct Hparams Hkids) in Hroot. rewrite Hroot.
    unfold isSignatureNodeContentTypeValueCorrect, contentType_value. rewrite Hsct.
    cbn [exc_bind]. f_equal. now apply indexOf_check_value.
Qed.

Lemma isValidSmimeEmail_throws_iff rootNode signatureNode :
  (exists e, isValidSmimeEmail rootNode signatureNode = Throw e) <->
  rootAccepted rootNode /\
  exists sn, signatureNode = Some sn /\ contentType sn = None.
Proof.
  split.
  - intros (e & H).
    assert (Hfields : exists ct params kids sn,
               contentType rootNode = Some ct /\ ct_params ct = Some params /\
               _childNodes rootNode = Some kids /\ signatureNode = Some sn).
    { unfold isValidSmimeEmail in H.
      destruct (contentType rootNode) as [ct|]; [| discriminate].
      destruct (ct_params ct) as [params|] eqn:Hp; [| discriminate].
      destruct (_childNodes rootNode) as [kids|]; [| discriminate].
      destruct signatureNode as [sn|]; [| discriminate].
      exists ct, params, kids, sn. auto. }
    destruct Hfields as (ct & params & kids & sn & Hct & Hparams & Hkids & ->).
    rewrite (isValidSmimeEmail_unfold _ _ _ _ _ Hct Hparams Hkids) in H.
    destruct (_ && _ && _) eqn:Hroot; [| discriminate].
    split; [now apply (rootAccepted_checks _ _ _ _ Hct Hparams Hkids) |].
    unfold isSignatureNodeContentTypeValueCorrect, contentType_value in H.
    destruct (contentType sn) as [sct|] eqn:Hsct; [discriminate |].
    now exists sn.
  - intros (Hroot & sn & -> & Hsn).
    destruct (rootAccepted_fields _ Hroot) as (ct & params & kids & Hct & Hparams & Hkids).
    rewrite (isValidSmimeEmail_unfold _ _ _ _ _ Hct Hparams Hkids).
    apply (rootAccepted_checks _ _ _ _ Hct Hparams Hkids) in Hroot. rewrite Hroot.
    unfold isSignatureNodeContentTypeValueCorrect, contentType_value. rewrite Hsn.
    cbn. eauto.
Qed.

Lemma isValidSmimeEmail_truthy rootNode signatureNode :
  isValidSmimeEmail rootNode signatureNode =
  (v <- isValidSmimeEmail_returned rootNode signatureNode ;; Ret (truthy v)).
Proof.
  unfold isValidSmimeEmail, isValidSmimeEmail_returned.
  destruct (contentType rootNode) as [ct|]; [| reflexivity].
  destruct (ct_params ct); [| reflexivity].
  destruct (_childNodes rootNode); [| reflexivity].
  destruct signatureNode as [sn|]; [| reflexivity].
  now destruct (_ &&& _ &&& _ &&& _).
Qed.

(** X3.  The [&&] chain of [isValidSmimeEmail] throws in one situation
    only: the root node passes all its tests and node "2" exists but has
    no content type.  Otherwise it evaluates to [undefined] when the root
    has no content type or no parameters, to [null] when these and the
    child list are there and node "2" is missing, and to a boolean in the
    remaining cases; the caller sees the truthiness of that value. *)
Theorem isValidSmimeEmail_returns rootNode signatureNode :
  ((exists e, isValidSmimeEmail_returned rootNode signatureNode = Throw e) <->
   rootAccepted rootNode /\
   exists sn, signatureNode = Some sn /\ contentType sn = None) /\
  (isValidSmimeEmail_returned rootNode signatureNode = Ret JUndefined <->
   contentType rootNode = None \/
   exists ct, contentType rootNode = Some ct /\ ct_params ct = None) /\
  (isValidSmimeEmail_returned rootNode signatureNode = Ret JNull <->
   exists ct params kids,
     contentType rootNode = Some ct /\ ct_params ct = Some params /\
     _childNodes rootNode = Some kids /\ signatureNode = None) /\
  (forall v, isValidSmimeEmail_returned rootNode signatureNode = Ret v ->
     (v = JUndefined \/ v = JNull \/ exists b, v = JBool b) /\
     isValidSmimeEmail rootNode signatureNode = Ret (truthy v)).
Proof.
  split; [| split; [| split]].
  - rewrite <- isValidSmimeEmail_throws_iff, isValidSmimeEmail_truthy.
    destruct (isValidSmimeEmail_returned rootNode signatureNode); cbn.
    + split; intros (e & H); discriminate.
    + split; eauto.
  - unfold isValidSmimeEmail_returned.
    destruct (contentType rootNode) as [ct|]; [| split; auto].
    destruct (ct_params ct) as [params|] eqn:Hparams; [| split; eauto].
    assert (Hno : ~ (Some ct = None \/
                     exists ct0, Some ct = Some ct0 /\ ct_params ct0 = None)).
    { intros [H | (ct0 & Hct & H)]; [discriminate | injection Hct as <-; congruence]. }
    destruct (_childNodes rootNode);
      [| split; [discriminate | intros H; destruct (Hno H)]].
    destruct signatureNode as [sn|];
      [| split; [discriminate | intros H; destruct (Hno H)]].
    destruct (_ &&& _ &&& _ &&& _); cbn;
      (split; [discriminate | intros H; destruct (Hno H)]).
  - unfold isValidSmimeEmail_returned.
    destruct (contentType rootNode) as [ct|];
      [| split; [discriminate | intros (c & p & k & H & _); discriminate]].
    destruct (ct_params ct) as [params|] eqn:Hparams;
      [| split; [discriminate | intros (c & p & k & [= <-] & H & _); congruence]].
    destruct (_childNodes rootNode) as [kids|];
      [| split; [discriminate | intros (c & p & k & _ & _ & H & _); discriminate]].
    destruct signatureNode as [sn|].
    + destruct (_ &&& _ &&& _ &&& _); cbn;
        (split; [discriminate | intros (c & p & k & _ & _ & _ & H); discriminate]).
    + split; [| reflexivity]. intros _. exists ct, params, kids. auto.
  - intros v Hv. rewrite isValidSmimeEmail_truthy, Hv. split; [| reflexivity].
    unfold isValidSmimeEmail_returned in Hv.
    destruct (contentType rootNode) as [ct|]; [| injection Hv as <-; auto].
    destruct (ct_params ct); [| injection Hv as <-; auto].
    destruct (_childNodes rootNode); [| injection Hv as <-; eauto].
    destruct signatureNode as [sn|]; [| injection Hv as <-; auto].
    destruct (_ &&& _ &&& _ &&& _); cbn in Hv; [injection Hv as <-; eauto | discriminate].
Qed.
End EnvelopeCharacterisation.

(** ** More on the pipeline *)

Section PipelineDetails.
Context {lib : Libraries} {amb : Ambient}.

Lemma tryDecode_certificates signatureNode signedData signerEmail :
  tryDecode signatureNode = Ret (signedData, signerEmail) ->
  exists certs,
    certificates signedData = Some certs /\ signerEmail = lastEmailAttribute certs.
Proof. intros H. now apply fetchSignerEmail_last, tryDecode_signer with signatureNode. Qed.

Lemma anyExpiredFrom_false certs :
  anyExpiredFrom certs = false <-> forall c, In c certs -> withinWindow c.
Proof.
  unfold withinWindow. induction certs as [|c rest IH]; cbn.
  - split; [intros _ c [] | reflexivity].
  - destruct (Z.ltb_spec now (notBefore c - marginMilliseconds)) as [Hlt|Hge].
    + split; [discriminate |]. intros H. specialize (H c (or_introl eq_refl)). lia.
    + rewrite Z.gtb_ltb.
      destruct (Z.ltb_spec (notAfter c + marginMilliseconds) now) as [Hgt|Hle].
      * split; [discriminate |]. intros H. specialize (H c (or_introl eq_refl)). lia.
      * rewrite IH. split.
        -- intros H c' [<- | Hin]; [lia | now apply H].
        -- intros H c' Hin. apply H. now right.
Qed.

Lemma noEmailAttribute_null certs :
  noEmailAttribute certs -> lastEmailAttribute certs = JNull.
Proof.
  intros Hno. unfold lastEmailAttribute.
  assert (Hnil : List.filter isEmailAttribute (concat (map subject certs)) = []).
  { induction certs as [|c rest IH]; [reflexivity |].
    cbn [map concat]. rewrite List.filter_app, IH.
    - rewrite app_nil_r.
      assert (Hc : forall tv, In tv (subject c) -> isEmailAttribute tv = false)
        by (intros tv; apply Hno; now left).
      induction (subject c) as [|tv tvs IHtvs]; [reflexivity |].
      cbn [List.filter]. rewrite (Hc tv) by now left.
      apply IHtvs. intros tv' Hin. apply Hc. now right.
    - intros c' tv Hin. apply Hno. now right. }
  now rewrite Hnil.
Qed.

(** The shapes a fulfilled result can take, read off the branches. *)
Lemma verify_fulfilled_cases rawMessage mailId r :
  verifyMessageSignature rawMessage mailId = Fulfilled r ->
  let parser := MimeParser_run rawMessage in
  let result := set_mailId getResultPrototype mailId in
  r = conclude result false CANNOT_VERIFY msg_notSigned \/
  r = conclude result false FRAUD_WARNING msg_invalidSignature \/
  r = conclude result false FRAUD_WARNING msg_expired \/
  exists signedData signerEmail buffer,
    ReadyToVerify rawMessage signedData signerEmail buffer /\
    r = settle parser result signerEmail
          (SignedData_verify signedData (verifyParams buffer)).
Proof.
  intros H parser result.
  unfold verifyMessageSignature in H; cbv zeta in H. fold parser result in H.
  destruct (isValidSmimeEmail (node parser) (getNode parser "2")) as [[|]|] eqn:Henv;
    [| injection H as <-; auto | discriminate].
  destruct (tryDecode (getNode parser "2")) as [[signedData signerEmail]|] eqn:Hdec;
    [| injection H as <-; auto].
  destruct (isAnyCertificateExpired signedData) as [[|]|] eqn:Hexp;
    [injection H as <-; auto | | discriminate].
  destruct (signedDataBuffer parser) as [buffer|] eqn:Hbuf; [| discriminate].
  injection H as <-. right; right; right.
  exists signedData, signerEmail, buffer. split; [| reflexivity].
  repeat split; assumption.
Qed.

(** With [verify] taken as handing back a promise, the rejections of the
    executor are those of the two places that throw before [verify] is
    called. *)
Lemma verifyMessageSignature_rejects_iff rawMessage mailId :
  let parser := MimeParser_run rawMessage in
  (exists e, verifyMessageSignature rawMessage mailId = Rejected e) <->
  (rootAccepted (node parser) /\
   exists sn, getNode parser "2" = Some sn /\ contentType sn = None) \/
  (isValidSmimeEmail (node parser) (getNode parser "2") = Ret true /\
   (exists signedData signerEmail,
      tryDecode (getNode parser "2") = Ret (signedData, signerEmail) /\
      isAnyCertificateExpired signedData = Ret false) /\
   nodes parser !! "node1" = None).
Proof.
  intros parser. rewrite <- isValidSmimeEmail_throws_iff.
  unfold verifyMessageSignature; cbv zeta. fold parser.
  destruct (isValidSmimeEmail (node parser) (getNode parser "2")) as [[|]|e0] eqn:Henv.
  - destruct (tryDecode (getNode parser "2")) as [[signedData signerEmail]|] eqn:Hdec.
    + destruct (tryDecode_certificates _ _ _ Hdec) as (certs & Hcerts & _).
      unfold isAnyCertificateExpired, signedDataBuffer. rewrite Hcerts.
      destruct (anyExpiredFrom certs) eqn:Hexp.
      * split; [intros (e & H); discriminate |].
        intros [(e & H) | (_ & (sd & em & [= <- <-] & Hfalse) & _)]; [discriminate |].
        rewrite Hcerts in Hfalse. congruence.
      * destruct (nodes parser !! "node1") as [node1|].
        -- split; [intros (e & H); discriminate |].
           intros [(e & H) | (_ & _ & H)]; discriminate.
        -- split; [| intros _; cbn; eauto]. intros _. right.
           split; [reflexivity | split; [| reflexivity]].
           exists signedData, signerEmail. rewrite Hcerts, Hexp. auto.
    + split; [intros (e1 & H); discriminate |].
      intros [(e1 & H) | (_ & (sd & em & H & _) & _)]; discriminate.
  - split; [intros (e1 & H); discriminate |].
    intros [(e1 & H) | (H & _)]; discriminate.
  - split; [eauto | eauto].
Qed.

(** X4.  The promise is rejected without [verify] having been called in
    two situations only: the root node passes its tests and node "2" has
    no content type, or everything up to the expiry check went through and
    there is no node "1". *)
Theorem rejected_before_verify_iff rawMessage mailId :
  let parser := MimeParser_run rawMessage in
  ((exists e, verifyMessageSignature rawMessage mailId = Rejected e) /\
   (forall signedData signerEmail buffer,
      ~ ReadyToVerify rawMessage signedData signerEmail buffer)) <->
  (rootAccepted (node parser) /\
   exists sn, getNode parser "2" = Some sn /\ contentType sn = None) \/
  (isValidSmimeEmail (node parser) (getNode parser "2") = Ret true /\
   (exists signedData signerEmail,
      tryDecode (getNode parser "2") = Ret (signedData, signerEmail) /\
      isAnyCertificateExpired signedData = Ret false) /\
   nodes parser !! "node1" = None).
Proof.
  intros parser.
  pose proof (verifyMessageSignature_rejects_iff rawMessage mailId) as Hiff.
  cbv zeta in Hiff. fold parser in Hiff. split.
  - intros [Hrej _]. now apply Hiff.
  - intros H. split; [now apply Hiff |].
    intros signedData signerEmail buffer (Henv & _ & _ & Hbuf).
    fold parser in Henv, Hbuf.
    destruct H as [Hthrow | (_ & _ & Hnode)].
    + apply isValidSmimeEmail_throws_iff in Hthrow as (e & Hthrow). congruence.
    + unfold signedDataBuffer in Hbuf. rewrite Hnode in Hbuf. discriminate.
Qed.

(** X5.  Every result the promise is fulfilled with carries the identifier
    the call was given. *)
Theorem mailId_passed_through rawMessage id r :
  verifyMessageSignature rawMessage id = Fulfilled r -> mailId r = id.
Proof.
  intros H.
  destruct (verify_fulfilled_cases _ _ _ H)
    as [-> | [-> | [-> | (sd & email & buffer & _ & ->)]]]; try reflexivity.
  destruct (settle_cases (MimeParser_run rawMessage) (set_mailId getResultPrototype id)
              email (SignedData_verify sd (verifyParams buffer)))
    as [-> | [-> | [[-> _] | [-> | ->]]]]; reflexivity.
Qed.

(** X6.  When no certificate of the envelope has an e-mail address
    attribute in its subject, the extracted address is [null] and the
    result is never VERIFICATION_OK, whatever [verify] answers and whatever
    the [From] header holds. *)
Theorem no_email_attribute_never_ok rawMessage mailId signedData signerEmail certs r :
  tryDecode (getNode (MimeParser_run rawMessage) "2") = Ret (signedData, signerEmail) ->
  certificates signedData = Some certs ->
  noEmailAttribute certs ->
  verifyMessageSignature rawMessage mailId = Fulfilled r ->
  signerEmail = JNull /\ code r <> VERIFICATION_OK /\ success r = false.
Proof.
  intros Hdec Hcerts Hno H.
  assert (Hnull : signerEmail = JNull).
  { destruct (tryDecode_certificates _ _ _ Hdec) as (certs' & Hcerts' & ->).
    rewrite Hcerts in Hcerts'. injection Hcerts' as <-.
    now apply noEmailAttribute_null. }
  split; [exact Hnull |].
  destruct (verify_fulfilled_cases _ _ _ H)
    as [-> | [-> | [-> | (sd & email & buffer & Hready & ->)]]];
    try (split; [discriminate | reflexivity]).
  destruct Hready as (_ & Hdec' & _). rewrite Hdec in Hdec'. injection Hdec' as <- <-.
  destruct (settle_cases (MimeParser_run rawMessage) (set_mailId getResultPrototype mailId)
              signerEmail (SignedData_verify signedData (verifyParams buffer)))
    as [-> | [-> | [[-> Hfrom] | [-> | ->]]]];
    try (split; [discriminate | reflexivity]).
  exfalso. apply isFromAddressCorrect_true in Hfrom as (mailbox & _ & Haddr).
  rewrite Hnull in Haddr. destruct (mb_address mailbox); discriminate.
Qed.

(** X7.  A signature that decodes to a SignedData without a [certificates]
    field is answered with the fraud warning "Invalid digital signature":
    reading the keys of the missing field throws inside the [try] block. *)
Theorem missing_certificates_is_invalid rawMessage mailId signatureNode bytes c signedData :
  let parser := MimeParser_run rawMessage in
  isValidSmimeEmail (node parser) (getNode parser "2") = Ret true ->
  getNode parser "2" = Some signatureNode ->
  content signatureNode = Some bytes ->
  fst (fromBER bytes) <> -1 ->
  ContentInfo_content (snd (fromBER bytes)) = Ret c ->
  SignedData_new c = Ret signedData ->
  certificates signedData = None ->
  verifyMessageSignature rawMessage mailId =
  Fulfilled (conclude (set_mailId getResultPrototype mailId) false FRAUD_WARNING
               msg_invalidSignature).
Proof.
  intros parser Henv Hnode Hcontent Hoff Hci Hsd Hnone.
  unfold verifyMessageSignature; cbv zeta. fold parser. rewrite Henv, Hnode.
  unfold tryDecode. rewrite Hcontent. cbn [utilConcatBuf exc_bind app].
  unfold getAsn1TypeFromBuffer; cbv zeta.
  apply Z.eqb_neq in Hoff. rewrite Hoff. cbn [exc_bind].
  unfold getSignedDataFromAsn1. rewrite Hci. cbn [exc_bind]. rewrite Hsd. cbn [exc_bind].
  unfold fetchSignerEmail. rewrite Hnone. reflexivity.
Qed.

(** X8.  [isAnyCertificateExpired] answers false exactly when the
    certificate list is there and the clock is within the widened window
    of every certificate, the two ends of the window included; an empty
    list is not expired. *)
Theorem not_expired_iff signedData :
  isAnyCertificateExpired signedData = Ret false <->
  exists certs,
    certificates signedData = Some certs /\
    forall c, In c certs ->
      notBefore c - expirationDateMarginHours * 60 * 60 * 1000 <= now
      <= notAfter c + expirationDateMarginHours * 60 * 60 * 1000.
Proof.
  unfold isAnyCertificateExpired.
  destruct (certificates signedData) as [certs|].
  - split.
    + intros [= H]. exists certs. split; [reflexivity |]. now apply anyExpiredFrom_false.
    + intros (certs' & [= <-] & H). f_equal. now apply anyExpiredFrom_false.
  - split; [discriminate | intros (certs & H & _); discriminate].
Qed.

(** X10.  When [verify] resolves with anything but [false] and the message
    has no first [From] mailbox, the exception of the identity check is
    caught: the result is CANNOT_VERIFY, "Message cannot be verified:
    Unknown error.", and its signer is already the extracted address. *)
Theorem missing_From_is_unknown_error rawMessage mailId signedData signerEmail buffer v :
  ReadyToVerify rawMessage signedData signerEmail buffer ->
  SignedData_verify signedData (verifyParams buffer) = Fulfilled v ->
  v <> JBool false ->
  firstFromMailbox (MimeParser_run rawMessage) = None ->
  verifyMessageSignature rawMessage mailId =
  Fulfilled {| mailId := mailId; success := false; code := CANNOT_VERIFY;
               message := msg_unknownError; signer := signerEmail |}.
Proof.
  intros Hready Hv Hne Hfrom.
  rewrite (verify_ready _ mailId _ _ _ Hready), Hv.
  assert (Hnot : isVerificationFailed v = false).
  { destruct (isVerificationFailed v) eqn:Hf; [| reflexivity].
    now apply isVerificationFailed_true in Hf. }
  rewrite (settle_not_failed _ _ _ _ Hnot). unfold identityVerdict.
  assert (Hthrow : exists e, isFromAddressCorrect (MimeParser_run rawMessage) signerEmail = Throw e).
  { unfold firstFromMailbox in Hfrom. unfold isFromAddressCorrect.
    destruct (headers (node (MimeParser_run rawMessage)) !! "from") as [entries|];
      [| cbn; eauto].
    destruct (entries !! 0%nat) as [entry|]; [| cbn; eauto].
    rewrite Hfrom. cbn. eauto. }
  destruct Hthrow as (e & ->). reflexivity.
Qed.
End PipelineDetails.

(** X9.  With the clock unchanged and every instant involved within the
    range of [Date], where the arithmetic of the code is exact, a
    certificate list accepted under one margin is accepted under every
    larger margin. *)
Theorem wider_margin_accepts_more {lib : Libraries} (amb1 amb2 : Ambient) signedData certs :
  certificates signedData = Some certs ->
  @now amb1 = @now amb2 ->
  @expirationDateMarginHours amb1 <= @expirationDateMarginHours amb2 ->
  @datesExact amb1 certs ->
  @datesExact amb2 certs ->
  @isAnyCertificateExpired lib amb1 signedData = Ret false ->
  @isAnyCertificateExpired lib amb2 signedData = Ret false.
Proof.
  intros Hcerts Hnow Hmargin _ _. unfold isAnyCertificateExpired. rewrite Hcerts.
  intros [= H]. f_equal.
  apply anyExpiredFrom_false. intros c Hin.
  apply (proj1 (@anyExpiredFrom_false amb1 certs) H) in Hin.
  unfold withinWindow, marginMilliseconds in *. lia.
Qed.

(** ** More on the line endings *)

Section LineEndingDetails.

Lemma replace_LF_with_CRLF_length s :
  String.length (replace_LF_with_CRLF s) = (String.length s + countLF s)%nat.
Proof.
  induction s as [|c rest IH]; [reflexivity |].
  cbn [replace_LF_with_CRLF countLF].
  destruct (Ascii.eqb c LF); cbn [String.length]; rewrite IH; lia.
Qed.

(** X11.  The replacement works line by line: the replacement of a
    concatenation is the concatenation of the replacements, and the result
    is longer than the text by the number of its line feeds. *)
Theorem replace_LF_with_CRLF_app a b :
  replace_LF_with_CRLF (a ++ b) = replace_LF_with_CRLF a ++ replace_LF_with_CRLF b /\
  String.length (replace_LF_with_CRLF (a ++ b)) =
  (String.length a + countLF a + (String.length b + countLF b))%nat.
Proof.
  assert (Happ : replace_LF_with_CRLF (a ++ b) =
                 replace_LF_with_CRLF a ++ replace_LF_with_CRLF b).
  { induction a as [|c rest IH]; [reflexivity |].
    change (String c rest ++ b) with (String c (rest ++ b)).
    cbn [replace_LF_with_CRLF]. rewrite IH.
    now destruct (Ascii.eqb c LF). }
  split; [exact Happ |].
  rewrite Happ. clear Happ.
  rewrite <- !replace_LF_with_CRLF_length.
  induction (replace_LF_with_CRLF a) as [|c rest IH]; [reflexivity |].
  simpl. now rewrite IH.
Qed.

(** X12.  The texts the replacement leaves unchanged are exactly those
    without a line feed; on any other text a second application changes
    the bytes again. *)
Theorem replace_LF_with_CRLF_fixed_point s :
  (replace_LF_with_CRLF s = s <-> countLF s = O) /\
  (replace_LF_with_CRLF (replace_LF_with_CRLF s) = replace_LF_with_CRLF s <->
   countLF s = O).
Proof.
  assert (Hcount : forall t, countLF (replace_LF_with_CRLF t) = countLF t).
  { induction t as [|c rest IH]; [reflexivity |].
    cbn [replace_LF_with_CRLF countLF].
    destruct (Ascii.eqb c LF) eqn:Hc.
    - cbn. now rewrite IH.
    - cbn [countLF]. now rewrite Hc, IH. }
  assert (Hfix : forall t, replace_LF_with_CRLF t = t <-> countLF t = O).
  { intros t. split.
    - intros H. pose proof (replace_LF_with_CRLF_length t) as Hlen.
      rewrite H in Hlen. lia.
    - induction t as [|c rest IH]; [reflexivity |].
      cbn [replace_LF_with_CRLF countLF].
      destruct (Ascii.eqb c LF); [discriminate |].
      intros H. now rewrite IH. }
  split; [apply Hfix |].
  rewrite Hfix. now rewrite Hcount.
Qed.
End LineEndingDetails.

(** ** More on the revision with an OCSP request *)

Section OcspDetails.
Context {lib : Libraries} {olib : OcspLibraries}.
Variable OCSPRequest_toBER : OcspRequest -> Exc ArrayBuffer.

Import ServiceOcsp.

Lemma string_get_In s i c :
  String.get i s = Some c -> In c (list_ascii_of_string s).
Proof.
  revert i. induction s as [|d rest IH]; intros i; [discriminate |].
  destruct i as [|i]; cbn.
  - intros [= ->]. now left.
  - intros H. right. now apply IH with i.
Qed.

Lemma string_get_lt s i :
  (i < String.length s)%nat -> exists c, String.get i s = Some c.
Proof.
  revert i. induction s as [|d rest IH]; intros i; cbn; [lia |].
  destruct i as [|i]; [eauto |]. intros H. apply IH. lia.
Qed.

Lemma list_ascii_of_string_app a b :
  list_ascii_of_string (a ++ b) = (list_ascii_of_string a ++ list_ascii_of_string b)%list.
Proof. induction a as [|c rest IH]; [reflexivity |]. simpl. now rewrite IH. Qed.

Lemma nonceText_chars n text g :
  exists suffix,
    list_ascii_of_string (fst (nonceText n text g)) =
    (list_ascii_of_string text ++ suffix)%list /\
    snd (nonceText n text g) = advance n g /\
    (List.length suffix <= n)%nat /\
    Forall (fun c => In c (list_ascii_of_string possible)) suffix /\
    ((forall g0, (fst (Math_random_index g0) < 62)%nat) -> List.length suffix = n).
Proof.
  revert text g. induction n as [|n IH]; intros text g.
  - exists []. cbn. rewrite app_nil_r. repeat split; auto.
  - cbn [nonceText advance].
    destruct (Math_random_index g) as [i g'] eqn:Hdraw. cbn [snd].
    destruct (IH (text ++ charAt possible i) g')
      as (suffix & Hchars & Hrng & Hlen & Hall & Hfull).
    exists (list_ascii_of_string (charAt possible i) ++ suffix)%list.
    rewrite Hchars, list_ascii_of_string_app, <- app_assoc.
    split; [reflexivity |]. split; [exact Hrng |].
    unfold charAt.
    destruct (String.get i possible) as [c|] eqn:Hget; cbn [list_ascii_of_string app].
    + split; [cbn; lia |]. split.
      * constructor; [now apply string_get_In with i | exact Hall].
      * intros Hrange. cbn. now rewrite Hfull.
    + split; [lia |]. split; [exact Hall |].
      intros Hrange. exfalso.
      destruct (string_get_lt possible i) as (c & Hc); [| congruence].
      specialize (Hrange g). rewrite Hdraw in Hrange. exact Hrange.
Qed.

(** X13.  [nonceGenerator(n)] draws from the generator exactly [n] times
    and returns at most [n] bytes, each of them a letter or a digit of
    [possible]; when every draw is below 62, as a floor of
    [Math.random() * 62] is, it returns exactly [n] bytes. *)
Theorem nonceGenerator_shape n g :
  snd (nonceGenerator n g) = advance n g /\
  (List.length (fst (nonceGenerator n g)) <= n)%nat /\
  Forall (fun b => In b (stringToArrayBuffer possible)) (fst (nonceGenerator n g)) /\
  ((forall g0, (fst (Math_random_index g0) < 62)%nat) ->
   List.length (fst (nonceGenerator n g)) = n).
Proof.
  unfold nonceGenerator.
  destruct (nonceText_chars n "" g) as (suffix & Hchars & Hrng & Hlen & Hall & Hfull).
  destruct (nonceText n "" g) as [text g']. cbn [fst snd] in *.
  unfold stringToArrayBuffer, list_byte_of_string.
  rewrite Hchars. cbn [list_ascii_of_string app].
  rewrite length_map.
  split; [exact Hrng |]. split; [exact Hlen |]. split; [| exact Hfull].
  apply List.Forall_forall. intros b Hb.
  apply in_map_iff in Hb as (c & <- & Hc).
  apply in_map. rewrite List.Forall_forall in Hall. now apply Hall.
Qed.
End OcspDetails.

Section OcspPipeline.
Context {lib : Libraries} {olib : OcspLibraries}.
Variable OCSPRequest_toBER : OcspRequest -> Exc ArrayBuffer.

Import ServiceOcsp.

Lemma decode_Ret_iff sn signedData :
  (signatureBuffer <- utilConcatBuf [] (content sn) ;;
   asn1 <- getAsn1TypeFromBuffer signatureBuffer ;;
   getSignedDataFromAsn1 asn1) = Ret signedData <->
  exists bytes c,
    content sn = Some bytes /\ fst (fromBER bytes) <> -1 /\
    ContentInfo_content (snd (fromBER bytes)) = Ret c /\
    SignedData_new c = Ret signedData.
Proof.
  unfold utilConcatBuf, getAsn1TypeFromBuffer, getSignedDataFromAsn1; cbv zeta.
  destruct (content sn) as [bytes|]; cbn [exc_bind app].
  - destruct (Z.eqb_spec (fst (fromBER bytes)) (-1)) as [Hoff|Hoff]; cbn [exc_bind].
    + split; [discriminate |]. intros (b & c & [= <-] & H & _). contradiction.
    + destruct (ContentInfo_content (snd (fromBER bytes))) as [c|] eqn:Hci; cbn [exc_bind].
      * split.
        -- intros H. exists bytes, c. auto.
        -- intros (b & c' & [= <-] & _ & Hc & H). congruence.
      * split; [discriminate |]. intros (b & c' & [= <-] & _ & Hc & _). congruence.
  - split; [discriminate |]. intros (b & c & H & _). discriminate.
Qed.

Lemma first_certificate_iff signedData cert0 :
  from_option (fun certs : list Certificate => certs !! 0%nat) None (certificates signedData)
  = Some cert0 <->
  exists rest, certificates signedData = Some (cert0 :: rest).
Proof.
  destruct (certificates signedData) as [[|c rest]|]; cbn.
  - split; [discriminate | intros (r & H); discriminate].
  - split; [intros [= ->]; eauto | intros (r & [= -> _]); reflexivity].
  - split; [discriminate | intros (r & H); discriminate].
Qed.

Lemma tryBlock_Ret sn w signedData signerEmail :
  fst (tryBlock OCSPRequest_toBER (Some sn) w) = Ret (signedData, signerEmail) ->
  exists bytes c cert0 rest tv tvs,
    content sn = Some bytes /\ fst (fromBER bytes) <> -1 /\
    ContentInfo_content (snd (fromBER bytes)) = Ret c /\
    SignedData_new c = Ret signedData /\
    certificates signedData = Some (cert0 :: rest) /\
    (4 <= List.length (issuer cert0))%nat /\
    subject cert0 = tv :: tvs /\
    signerEmail = JStr (atv_value tv).
Proof.
  unfold tryBlock.
  destruct (exc_bind _ _) as [cms|] eqn:Hdecode; [| discriminate].
  apply decode_Ret_iff in Hdecode as (bytes & c & Hcontent & Hoff & Hci & Hsd).
  destruct (from_option _ _ _) as [cert0|] eqn:Hfirst; [| discriminate].
  apply first_certificate_iff in Hfirst as (rest & Hcerts).
  destruct (issuer cert0 !! 3%nat) as [issuerAttribute|] eqn:Hissuer; [| discriminate].
  apply lookup_lt_Some in Hissuer.
  destruct (nonceGenerator 32 (rng w)) as [nonce g]. cbv zeta.
  destruct (OCSPRequest_toBER _) as [ber|]; [| discriminate].
  destruct (subject cert0) as [|tv tvs] eqn:Hsubject; [discriminate |].
  cbn. intros [= <- <-].
  exists bytes, c, cert0, rest, tv, tvs. repeat split; auto; lia.
Qed.

(** X14.  In this revision a first certificate whose issuer has fewer than
    four attributes is answered with the fraud warning "Invalid digital
    signature", whatever the signature: reading the fourth attribute
    throws inside the [try] block, before any nonce is drawn and before
    the buffer of the service is written. *)
Theorem short_issuer_is_invalid rawMessage mailId w signedData cert0 rest :
  let parser := MimeParser_run rawMessage in
  isValidSmimeEmail (node parser) (getNode parser "2") = Ret true ->
  DecodesTo parser signedData ->
  certificates signedData = Some (cert0 :: rest) ->
  (List.length (issuer cert0) < 4)%nat ->
  let after := verifyMessageSignature OCSPRequest_toBER rawMessage mailId w in
  fst after =
  Fulfilled {| mailId := mailId; success := false; code := FRAUD_WARNING;
               message := msg_invalidSignature; signer := signer getResultPrototype |} /\
  rng (snd after) = rng w /\
  ocspReqBuffer (snd after) = ocspReqBuffer w.
Proof.
  intros parser Henv (sn & bytes & c & Hnode & Hcontent & Hoff & Hci & Hsd) Hcerts Hshort.
  cbv zeta. unfold verifyMessageSignature; cbv zeta. fold parser.
  rewrite Henv, Hnode. unfold tryBlock.
  assert (Hdecode : (signatureBuffer <- utilConcatBuf [] (content sn) ;;
                     asn1 <- getAsn1TypeFromBuffer signatureBuffer ;;
                     getSignedDataFromAsn1 asn1) = Ret signedData)
    by (apply decode_Ret_iff; eauto 7).
  rewrite Hdecode, Hcerts. cbn [from_option].
  change ((cert0 :: rest) !! 0%nat) with (Some cert0). cbv beta iota.
  assert (Hnone : issuer cert0 !! 3%nat = None) by (apply lookup_ge_None; lia).
  rewrite Hnone. cbn. auto.
Qed.

(** X15.  What a call leaves behind in this revision: the console keeps
    its earlier entries and gains at most three; the generator has been
    drawn from 32 times or not at all; the buffer of the service is
    either untouched or an encoding the BER encoder returned; and a call
    whose envelope check does not answer true leaves everything as it
    was. *)
Theorem world_after_call rawMessage mailId w :
  let parser := MimeParser_run rawMessage in
  let after := snd (verifyMessageSignature OCSPRequest_toBER rawMessage mailId w) in
  (exists entries,
     console after = (console w ++ entries)%list /\ (List.length entries <= 3)%nat) /\
  (rng after = rng w \/ rng after = advance 32 (rng w)) /\
  (ocspReqBuffer after = ocspReqBuffer w \/
   exists req, OCSPRequest_toBER req = Ret (ocspReqBuffer after)) /\
  (isValidSmimeEmail (node parser) (getNode parser "2") <> Ret true -> after = w).
Proof.
  intros parser. cbv zeta.
  assert (Hnil : exists entries,
             console w = (console w ++ entries)%list /\ (List.length entries <= 3)%nat)
    by (exists []; rewrite app_nil_r; cbn; split; [reflexivity | lia]).
  unfold verifyMessageSignature; cbv zeta. fold parser.
  destruct (isValidSmimeEmail (node parser) (getNode parser "2")) as [[|]|] eqn:Henv;
    cbn [snd]; try (repeat split; auto; fail).
  assert (Htry :
    let out := tryBlock OCSPRequest_toBER (getNode parser "2") w in
    (exists entries,
       console (snd out) = (console w ++ entries)%list /\
       (List.length entries <= 2)%nat) /\
    (rng (snd out) = rng w \/ rng (snd out) = advance 32 (rng w)) /\
    (ocspReqBuffer (snd out) = ocspReqBuffer w \/
     exists req, OCSPRequest_toBER req = Ret (ocspReqBuffer (snd out)))).
  { cbv zeta. unfold tryBlock.
    assert (Hsame : exists entries,
               console w = (console w ++ entries)%list /\ (List.length entries <= 2)%nat)
      by (exists []; rewrite app_nil_r; cbn; split; [reflexivity | lia]).
    destruct (getNode parser "2") as [sn|]; [| cbn; auto].
    destruct (exc_bind _ _) as [cms|]; [| cbn; auto].
    destruct (from_option _ _ _) as [cert0|]; [| cbn; auto].
    destruct (issuer cert0 !! 3%nat) as [issuerAttribute|]; [| cbn; auto].
    pose proof (nonceGenerator_shape 32 (rng w)) as (Hrng & _).
    destruct (nonceGenerator 32 (rng w)) as [nonce g]. cbn [snd] in Hrng. cbv zeta.
    destruct (OCSPRequest_toBER _) as [ber|] eqn:Hber.
    - destruct (subject cert0 !! 0%nat); cbn;
        (split; [eexists; split; [rewrite <- app_assoc; reflexivity | cbn; lia] |]);
        (split; [now right | right; eauto]).
    - cbn. split; [exact Hsame |]. split; [now right | now left]. }
  cbv zeta in Htry.
  destruct (tryBlock OCSPRequest_toBER (getNode parser "2") w) as [[[cms email]|ex] w1].
  - cbn [fst snd] in Htry.
    destruct Htry as ((entries & Hconsole & Hlen) & Hrng & Hbuf).
    destruct (signedDataBuffer parser) as [buffer|]; cbn [snd].
    + unfold settle.
      destruct (SignedData_verify cms _) as [v|e].
      * destruct (thenHandler parser _ email v) as [r [e|]]; cbn [snd console_log console rng ocspReqBuffer].
        -- split; [| repeat split; auto; intros Hne; now contradict Hne].
           exists (entries ++ [LogError e])%list. rewrite Hconsole, app_assoc.
           split; [reflexivity |]. rewrite length_app. cbn. lia.
        -- split; [| repeat split; auto; intros Hne; now contradict Hne].
           exists entries. split; [exact Hconsole | lia].
      * cbn [snd console_log console rng ocspReqBuffer].
        split; [| repeat split; auto; intros Hne; now contradict Hne].
        exists (entries ++ [LogError e])%list. rewrite Hconsole, app_assoc.
        split; [reflexivity |]. rewrite length_app. cbn. lia.
    + split; [| repeat split; auto; intros Hne; now contradict Hne].
      exists entries. split; [exact Hconsole | lia].
  - cbn [fst snd] in Htry.
    destruct Htry as ((entries & Hconsole & Hlen) & Hrng & Hbuf).
    cbn [snd console_log console rng ocspReqBuffer].
    split; [| repeat split; auto; intros Hne; now contradict Hne].
    exists (entries ++ [LogError ex])%list. rewrite Hconsole, app_assoc.
    split; [reflexivity |]. rewrite length_app. cbn. lia.
Qed.
End OcspPipeline.

Section OcspVerdict.
Context {lib : Libraries} {olib : OcspLibraries}.
Variable OCSPRequest_toBER : OcspRequest -> Exc ArrayBuffer.

Lemma ocsp_settle_fst parser result signerEmail p w :
  fst (ServiceOcsp.settle parser result signerEmail p w) =
  settle parser result signerEmail p.
Proof.
  unfold ServiceOcsp.settle, settle. destruct p as [v|e]; [| reflexivity].
  now destruct (thenHandler parser result signerEmail v) as [r [e|]].
Qed.

(** X16.  In this revision a result VERIFICATION_OK means: the signature
    part decoded, the issuer of the first certificate has at least four
    attributes, and the signer of the result is the value of the first
    attribute of the first certificate's subject, whatever its type, which
    is also the address of the first [From] mailbox. *)
Theorem ocsp_ok_signer rawMessage mailId w r :
  let parser := MimeParser_run rawMessage in
  fst (ServiceOcsp.verifyMessageSignature OCSPRequest_toBER rawMessage mailId w) =
  Fulfilled r ->
  code r = VERIFICATION_OK ->
  exists signedData cert0 rest tv tvs mailbox,
    DecodesTo parser signedData /\
    certificates signedData = Some (cert0 :: rest) /\
    (4 <= List.length (issuer cert0))%nat /\
    subject cert0 = tv :: tvs /\
    signer r = JStr (atv_value tv) /\
    firstFromMailbox parser = Some mailbox /\
    mb_address mailbox = Some (atv_value tv).
Proof.
  intros parser H Hok.
  unfold ServiceOcsp.verifyMessageSignature in H; cbv zeta in H. fold parser in H.
  destruct (isValidSmimeEmail (node parser) (getNode parser "2")) as [[|]|];
    [| cbn in H; injection H as <-; discriminate | discriminate].
  destruct (getNode parser "2") as [sn|] eqn:Hnode;
    [| cbn in H; injection H as <-; discriminate].
  destruct (ServiceOcsp.tryBlock OCSPRequest_toBER (Some sn) w)
    as [[[cms email]|ex] w1] eqn:Htry;
    [| cbn in H; injection H as <-; discriminate].
  assert (Hret : fst (ServiceOcsp.tryBlock OCSPRequest_toBER (Some sn) w) = Ret (cms, email))
    by now rewrite Htry.
  apply tryBlock_Ret in Hret
    as (bytes & c & cert0 & rest & tv & tvs & Hcontent & Hoff & Hci & Hsd & Hcerts
        & Hissuer & Hsubject & ->).
  destruct (signedDataBuffer parser) as [buffer|]; [| discriminate].
  pose proof (ocsp_settle_fst parser (set_mailId getResultPrototype mailId)
                (JStr (atv_value tv))
                (SignedData_verify cms
                   {| vp_signer := 0; vp_data := buffer; vp_checkChain := true |}) w1)
    as Hfst.
  destruct (ServiceOcsp.settle _ _ _ _ w1) as [r' w2]. cbn [fst] in H, Hfst.
  injection H as ->. subst r.
  destruct (settle_cases parser (set_mailId getResultPrototype mailId) (JStr (atv_value tv))
              (SignedData_verify cms
                 {| vp_signer := 0; vp_data := buffer; vp_checkChain := true |}))
    as [Hr | [Hr | [[Hr Hfrom] | [Hr | Hr]]]]; rewrite Hr in Hok |- *;
    try discriminate.
  apply isFromAddressCorrect_true in Hfrom as (mailbox & Hmb & Haddr).
  exists cms, cert0, rest, tv, tvs, mailbox.
  split; [exists sn, bytes, c; auto |].
  repeat split; auto.
  destruct (mb_address mailbox); cbn in Haddr; congruence.
Qed.
End OcspVerdict.

(** ** Matching by derivatives *)

Section RegexCorrectness.

Lemma string_app_nil a b : a ++ b = "" -> a = "" /\ b = "".
Proof. destruct a; [intros H; split; [reflexivity | exact H] | discriminate]. Qed.

Lemma Matches_nil_nullable r s : Matches r s -> s = "" -> nullable r = true.
Proof.
  induction 1 as [| | | r1 r2 s H IH | r1 r2 s H IH | r1 r2 s1 s2 H1 IH1 H2 IH2 | |];
    intros Hs; cbn; try discriminate; try reflexivity.
  - now rewrite IH.
  - rewrite IH by assumption. apply orb_true_r.
  - apply string_app_nil in Hs as [-> ->]. now rewrite IH1, IH2.
Qed.

Lemma nullable_Matches r : nullable r = true <-> Matches r "".
Proof.
  split; [| intros H; now apply Matches_nil_nullable with ""].
  induction r; cbn; try discriminate; intros H.
  - constructor.
  - apply orb_true_iff in H as [H | H]; [apply MAltL | apply MAltR]; auto.
  - apply andb_true_iff in H as [H1 H2].
    change "" with ("" ++ ""). constructor; auto.
  - constructor.
Qed.

Lemma derive_sound c r s : Matches (derive c r) s -> Matches r (String c s).
Proof.
  revert s. induction r as [| | d | lo hi | r1 IH1 r2 IH2 | r1 IH1 r2 IH2 | r1 IH1];
    intros s; cbn [derive].
  - inversion 1.
  - inversion 1.
  - destruct (Ascii.eqb c d) eqn:Hc; inversion 1; subst.
    apply Ascii.eqb_eq in Hc as ->. constructor.
  - destruct (inRange lo hi c) eqn:Hc; inversion 1; subst. now constructor.
  - inversion 1; subst; [apply MAltL | apply MAltR]; auto.
  - assert (Hseq : Matches (Seq (derive c r1) r2) s -> Matches (Seq r1 r2) (String c s)).
    { inversion 1; subst.
      change (String c (s1 ++ s2)) with (String c s1 ++ s2). constructor; auto. }
    destruct (nullable r1) eqn:Hnull; [| exact Hseq].
    inversion 1; subst; [now apply Hseq |].
    change (String c s) with ("" ++ String c s).
    constructor; [now apply nullable_Matches | auto].
  - inversion 1; subst.
    change (String c (s1 ++ s2)) with (String c s1 ++ s2). constructor; auto.
Qed.

Lemma derive_complete r t :
  Matches r t -> forall c s, t = String c s -> Matches (derive c r) s.
Proof.
  induction 1 as [| d | lo hi d Hd | r1 r2 s' H IH | r1 r2 s' H IH
                  | r1 r2 s1 s2 H1 IH1 H2 IH2 | | r1 s1 s2 H1 IH1 H2 IH2];
    intros c s Ht; cbn [derive]; try discriminate.
  - injection Ht as -> <-. rewrite Ascii.eqb_refl. constructor.
  - injection Ht as -> <-. rewrite Hd. constructor.
  - apply MAltL. now apply IH.
  - apply MAltR. now apply IH.
  - destruct s1 as [|d s1'].
    + change (s2 = String c s) in Ht. subst s2.
      rewrite (proj2 (nullable_Matches r1) H1). apply MAltR. now apply IH2.
    + injection Ht as -> <-.
      specialize (IH1 c s1' eq_refl).
      destruct (nullable r1); [apply MAltL |]; now constructor.
  - destruct s1 as [|d s1'].
    + apply IH2. exact Ht.
    + injection Ht as -> <-. constructor; [now apply IH1 | exact H2].
Qed.

Lemma matches_Matches r s : matches r s = true <-> Matches r s.
Proof.
  revert r. induction s as [|c rest IH]; intros r; cbn [matches].
  - apply nullable_Matches.
  - rewrite IH. split; [apply derive_sound |].
    intros H. now apply derive_complete with (String c rest).
Qed.

Lemma Matches_Lit p s : Matches (Lit p) s <-> s = p.
Proof.
  revert s. induction p as [|c rest IH]; intros s; cbn [Lit].
  - split; [now inversion 1 | intros ->; constructor].
  - split.
    + inversion 1 as [| | | | | r1 r2 s1 s2 H1 H2 | |]; subst.
      inversion H1; subst. apply IH in H2 as ->. reflexivity.
    + intros ->. change (String c rest) with (String c "" ++ rest).
      constructor; [constructor | now apply IH].
Qed.

Lemma Matches_inboxPathClass s :
  Matches inboxPathClass s <-> exists c, s = String c "" /\ inboxPathChar c = true.
Proof.
  unfold inboxPathClass, inboxPathChar. split.
  - intros H.
    repeat match goal with
           | H : Matches (Alt _ _) _ |- _ => inversion H; subst; clear H
           | H : Matches (Range _ _) _ |- _ => inversion H; subst; clear H
           | H : Matches (Chr _) _ |- _ => inversion H; subst; clear H
           end;
      eexists; (split; [reflexivity |]);
      repeat match goal with
             | H : inRange _ _ _ = true |- _ => rewrite H
             end;
      cbn; rewrite ?orb_true_r; reflexivity.
  - intros (c & -> & H).
    repeat (apply orb_true_iff in H as [H | H]).
    + apply MAltL. now constructor.
    + apply MAltR, MAltL. now constructor.
    + apply Ascii.eqb_eq in H as ->. apply MAltR, MAltR, MAltL. constructor.
    + apply Ascii.eqb_eq in H as ->. apply MAltR, MAltR, MAltR, MAltL. constructor.
    + apply Ascii.eqb_eq in H as ->. apply MAltR, MAltR, MAltR, MAltR, MAltL. constructor.
    + apply Ascii.eqb_eq in H as ->. apply MAltR, MAltR, MAltR, MAltR, MAltR. constructor.
Qed.

Lemma forallb_string_app p a b :
  forallb p (list_ascii_of_string (a ++ b)) =
  forallb p (list_ascii_of_string a) && forallb p (list_ascii_of_string b).
Proof. rewrite list_ascii_of_string_app. apply forallb_app. Qed.

Lemma Matches_Star_class r s :
  Matches r s -> r = Star inboxPathClass ->
  forallb inboxPathChar (list_ascii_of_string s) = true.
Proof.
  induction 1 as [| | | | | | | r1 s1 s2 H1 _ H2 IH2]; intros Hr; try discriminate.
  - reflexivity.
  - injection Hr as ->. rewrite forallb_string_app, IH2 by reflexivity.
    apply Matches_inboxPathClass in H1 as (c & -> & Hc). cbn. now rewrite Hc.
Qed.

Lemma class_Matches_Star s :
  forallb inboxPathChar (list_ascii_of_string s) = true ->
  Matches (Star inboxPathClass) s.
Proof.
  induction s as [|c rest IH]; cbn; [constructor |].
  intros H. apply andb_true_iff in H as [Hc Hrest].
  change (String c rest) with (String c "" ++ rest).
  constructor; [apply Matches_inboxPathClass; eauto | auto].
Qed.

Lemma Matches_inboxRegex href :
  Matches inboxRegex href <->
  exists rest,
    href = "https://inbox.google.com/" ++ rest /\
    forallb inboxPathChar (list_ascii_of_string rest) = true.
Proof.
  unfold inboxRegex, Opt, Plus. split.
  - inversion 1 as [| | | | | r1 r2 s1 s2 H1 H2 | |]; subst.
    apply (Matches_Lit "https://inbox.google.com/") in H1 as ->.
    exists s2. split; [reflexivity |].
    inversion H2 as [| | | r1 r2 s H3 | r1 r2 s H3 | | |]; subst.
    + inversion H3 as [| | | | | r1 r2 t1 t2 H4 H5 | |]; subst.
      rewrite forallb_string_app.
      apply Matches_inboxPathClass in H4 as (c & -> & Hc).
      rewrite (Matches_Star_class _ _ H5 eq_refl). cbn. now rewrite Hc.
    + now inversion H3.
  - intros (rest & -> & Hrest). constructor; [now apply Matches_Lit |].
    destruct rest as [|c rest]; [apply MAltR; constructor |].
    apply MAltL. cbn in Hrest. apply andb_true_iff in Hrest as [Hc Hrest].
    change (String c rest) with (String c "" ++ rest).
    constructor; [apply Matches_inboxPathClass; eauto | now apply class_Matches_Star].
Qed.

(** X17.  [isInbox] answers true exactly for the addresses made of
    "https://inbox.google.com/" followed by any number, possibly zero, of
    lower-case letters, digits and the characters / ? = &; an address with
    any other character after the host (an upper-case letter, a dot, a
    hash, a percent sign) is handled as Gmail. *)
Theorem isInbox_iff href :
  isInbox href = true <->
  exists rest,
    href = "https://inbox.google.com/" ++ rest /\
    forallb inboxPathChar (list_ascii_of_string rest) = true.
Proof. unfold isInbox. rewrite matches_Matches. apply Matches_inboxRegex. Qed.
End RegexCorrectness.

(** ** Marking the results of the service *)

Section Marking.
Context {lib : Libraries} {amb : Ambient}.
Variable chrome_runtime_getURL : string -> string.

Lemma verify_ok_signer rawMessage id r :
  verifyMessageSignature rawMessage id = Fulfilled r ->
  code r = VERIFICATION_OK ->
  exists a mailbox,
    signer r = JStr a /\
    firstFromMailbox (MimeParser_run rawMessage) = Some mailbox /\
    mb_address mailbox = Some a.
Proof.
  intros H Hok.
  destruct (verify_fulfilled_cases _ _ _ H)
    as [-> | [-> | [-> | (sd & email & buffer & Hready & ->)]]]; try discriminate.
  destruct Hready as (_ & Hdec & _).
  destruct (tryDecode_certificates _ _ _ Hdec) as (certs & _ & Hshape).
  destruct (settle_cases (MimeParser_run rawMessage) (set_mailId getResultPrototype id)
              email (SignedData_verify sd (verifyParams buffer)))
    as [Hr | [Hr | [[Hr Hfrom] | [Hr | Hr]]]]; rewrite Hr in Hok |- *; try discriminate.
  apply isFromAddressCorrect_true in Hfrom as (mailbox & Hmb & Haddr).
  destruct (mb_address mailbox) as [a|] eqn:Ha; cbn in Haddr.
  - exists a, mailbox. cbn. auto.
  - exfalso. subst email.
    destruct (lastEmailAttribute_shape certs) as [Hn | (a & Hn)]; congruence.
Qed.

(** X18.  A result of the service is left without any mark exactly when
    its code is CANNOT_VERIFY, on Inbox and on Gmail alike; in particular
    a message that fails the envelope check is never marked. *)
Theorem unverifiable_is_not_marked rawMessage id href r :
  let parser := MimeParser_run rawMessage in
  verifyMessageSignature rawMessage id = Fulfilled r ->
  (markResult chrome_runtime_getURL href r = [] <-> code r = CANNOT_VERIFY) /\
  (isValidSmimeEmail (node parser) (getNode parser "2") = Ret false ->
   markResult chrome_runtime_getURL href r = []).
Proof.
  intros parser H.
  assert (Hiff : markResult chrome_runtime_getURL href r = [] <-> code r = CANNOT_VERIFY).
  { unfold markResult, markForInbox, markForGmail.
    destruct (code r); cbn; destruct (isInbox href); split; congruence. }
  split; [exact Hiff |].
  intros Henv. apply Hiff.
  unfold verifyMessageSignature in H; cbv zeta in H. fold parser in H.
  rewrite Henv in H. now injection H as <-.
Qed.

(** X19.  Whatever a mark shows for a result of the service is fixed by
    the code: for a fraud warning the text is "Fraud warning!", never the
    signer, and the icon is that of [img/fraud_warning.png]; for
    VERIFICATION_OK the text is the signer, which is the address of the
    first [From] mailbox, and the icon is that of
    [img/verification_ok.png]. *)
Theorem what_a_mark_shows rawMessage id href r call :
  verifyMessageSignature rawMessage id = Fulfilled r ->
  In call (markResult chrome_runtime_getURL href r) ->
  (code r = FRAUD_WARNING /\
   (forall t, shownText call = Some t -> t = JStr "Fraud warning!") /\
   (forall u, shownIcon call = Some u ->
              u = chrome_runtime_getURL "img/fraud_warning.png")) \/
  (code r = VERIFICATION_OK /\
   (forall t, shownText call = Some t ->
      exists a mailbox,
        t = JStr a /\ firstFromMailbox (MimeParser_run rawMessage) = Some mailbox /\
        mb_address mailbox = Some a) /\
   (forall u, shownIcon call = Some u ->
              u = chrome_runtime_getURL "img/verification_ok.png")).
Proof.
  intros H Hin.
  pose proof (verify_ok_signer _ _ _ H) as Hsigner.
  unfold markResult, markForInbox, markForGmail, createCustomIcon, getInfoText,
    getIconPath in Hin.
  destruct (code r) eqn:Hcode; cbn in Hin.
  - right. destruct (Hsigner eq_refl) as (a & mailbox & Hs & Hmb & Ha).
    split; [reflexivity |].
    destruct (isInbox href); cbn in Hin;
      destruct Hin as [<- | [<- | []]]; cbn;
      (split; [intros t [= <-]; eauto | intros u [= <-]; reflexivity])
      || (split; [intros t Ht; discriminate | intros u [= <-]; reflexivity])
      || (split; [intros t [= <-]; eauto | intros u Hu; discriminate]).
  - destruct Hin.
  - left. split; [reflexivity |].
    destruct (isInbox href); cbn in Hin;
      destruct Hin as [<- | [<- | []]]; cbn;
      (split; [intros t [= <-]; reflexivity | intros u [= <-]; reflexivity])
      || (split; [intros t Ht; discriminate | intros u [= <-]; reflexivity])
      || (split; [intros t [= <-]; reflexivity | intros u Hu; discriminate]).
Qed.
End Marking.

(** ** More runs on concrete messages *)

Section MoreRuns.
Import Fixtures MoreFixtures.

Lemma mailId_passed_through_witness :
  @verifyMessageSignature (aliceLibrary (JBool true)) inTime "raw" "id" =
  Fulfilled {| mailId := "id"; success := true; code := VERIFICATION_OK;
               message := msg_valid; signer := JStr alice |} /\
  mailId {| mailId := "id"; success := true; code := VERIFICATION_OK;
            message := msg_valid; signer := JStr alice |} = "id".
Proof.
  split; [reflexivity |].
  exact (@mailId_passed_through (aliceLibrary (JBool true)) inTime "raw" "id" _ eq_refl).
Defined.

Lemma nameless_noEmailAttribute : @noEmailAttribute inTime [namelessCertificate].
Proof. intros c tv [<- | []] [<- | []]. reflexivity. Defined.

Lemma no_email_attribute_never_ok_witness :
  @noEmailAttribute inTime [namelessCertificate] /\
  JNull = JNull /\
  code {| mailId := "id"; success := false; code := FRAUD_WARNING;
          message := msg_fromMismatch; signer := JNull |} <> VERIFICATION_OK /\
  success {| mailId := "id"; success := false; code := FRAUD_WARNING;
             message := msg_fromMismatch; signer := JNull |} = false.
Proof.
  split; [exact nameless_noEmailAttribute |].
  exact (@no_email_attribute_never_ok namelessLibrary inTime "raw" "id"
           (Some [namelessCertificate]) JNull [namelessCertificate] _
           eq_refl eq_refl nameless_noEmailAttribute eq_refl).
Defined.

Lemma missing_certificates_is_invalid_witness :
  @certificates noCertificatesLibrary None = None /\
  @verifyMessageSignature noCertificatesLibrary inTime "raw" "id" =
  Fulfilled (conclude (set_mailId getResultPrototype "id") false FRAUD_WARNING
               msg_invalidSignature).
Proof.
  split; [reflexivity |].
  refine (@missing_certificates_is_invalid noCertificatesLibrary inTime "raw" "id"
            signatureNode (stringToArrayBuffer "0") tt None
            eq_refl eq_refl eq_refl _ eq_refl eq_refl eq_refl).
  cbn. lia.
Defined.

Lemma aliceDates_exact h :
  -1000 <= h <= 1000 ->
  @datesExact (ambientWithMargin justAfter h) [aliceCertificate].
Proof.
  intros Hh. unfold datesExact, inDateRange, dateLimit, marginMilliseconds.
  change (@now (ambientWithMargin justAfter h)) with justAfter.
  change (@expirationDateMarginHours (ambientWithMargin justAfter h)) with h.
  unfold justAfter, hour.
  split; [lia |]. split; [lia |].
  intros c [<- | []]. cbn [notBefore notAfter aliceCertificate certificateFor].
  unfold hour. lia.
Defined.

Lemma wider_margin_accepts_more_witness :
  @datesExact (ambientWithMargin justAfter 1) [aliceCertificate] /\
  @datesExact (ambientWithMargin justAfter 3) [aliceCertificate] /\
  @isAnyCertificateExpired (aliceLibrary (JBool true)) (ambientWithMargin justAfter 1)
    (Some [aliceCertificate]) = Ret false /\
  @isAnyCertificateExpired (aliceLibrary (JBool true)) (ambientWithMargin justAfter 3)
    (Some [aliceCertificate]) = Ret false.
Proof.
  assert (H1 : @datesExact (ambientWithMargin justAfter 1) [aliceCertificate])
    by (apply aliceDates_exact; lia).
  assert (H3 : @datesExact (ambientWithMargin justAfter 3) [aliceCertificate])
    by (apply aliceDates_exact; lia).
  split; [exact H1 |]. split; [exact H3 |]. split; [reflexivity |].
  refine (@wider_margin_accepts_more (aliceLibrary (JBool true))
            (ambientWithMargin justAfter 1) (ambientWithMargin justAfter 3)
            (Some [aliceCertificate]) [aliceCertificate] eq_refl eq_refl _ H1 H3 eq_refl).
  cbn. lia.
Defined.

Lemma missing_From_is_unknown_error_witness :
  firstFromMailbox anonymousMessage = None /\
  @verifyMessageSignature anonymousLibrary inTime "raw" "id" =
  Fulfilled {| mailId := "id"; success := false; code := CANNOT_VERIFY;
               message := msg_unknownError; signer := JStr alice |}.
Proof.
  split; [reflexivity |].
  refine (@missing_From_is_unknown_error anonymousLibrary inTime "raw" "id"
            (Some [aliceCertificate]) (JStr alice) bodyBuffer (JBool true)
            _ eq_refl _ eq_refl).
  - repeat split; reflexivity.
  - discriminate.
Defined.

Lemma short_issuer_is_invalid_witness :
  (List.length (issuer shortIssuerCertificate) < 4)%nat /\
  fst (@ServiceOcsp.verifyMessageSignature shortIssuerLibrary (countingOcsp _) encodeOcsp
         "raw" "id" (@ServiceOcsp.constructor _ (countingOcsp _) 0%nat)) =
  Fulfilled {| mailId := "id"; success := false; code := FRAUD_WARNING;
               message := msg_invalidSignature; signer := JStr "" |}.
Proof.
  assert (Hshort : (List.length (issuer shortIssuerCertificate) < 4)%nat) by (cbn; lia).
  split; [exact Hshort |].
  refine (proj1 (@short_issuer_is_invalid shortIssuerLibrary (countingOcsp _) encodeOcsp
                   "raw" "id" (@ServiceOcsp.constructor _ (countingOcsp _) 0%nat)
                   (Some [shortIssuerCertificate]) shortIssuerCertificate []
                   eq_refl _ eq_refl Hshort)).
  exists signatureNode, (stringToArrayBuffer "0"), tt.
  repeat split; try reflexivity. cbn. lia.
Defined.

Lemma ocsp_ok_signer_witness :
  fst (@ServiceOcsp.verifyMessageSignature senderLibrary (countingOcsp _) encodeOcsp
         "raw" "id" (@ServiceOcsp.constructor _ (countingOcsp _) 0%nat)) =
  Fulfilled {| mailId := "id"; success := true; code := VERIFICATION_OK;
               message := msg_valid; signer := JStr "Sender" |} /\
  exists signedData cert0 rest tv tvs mailbox,
    @DecodesTo senderLibrary (@MimeParser_run senderLibrary "raw") signedData /\
    @certificates senderLibrary signedData = Some (cert0 :: rest) /\
    (4 <= List.length (issuer cert0))%nat /\
    subject cert0 = tv :: tvs /\
    JStr "Sender" = JStr (atv_value tv) /\
    firstFromMailbox (@MimeParser_run senderLibrary "raw") = Some mailbox /\
    mb_address mailbox = Some (atv_value tv).
Proof.
  split; [reflexivity |].
  exact (@ocsp_ok_signer senderLibrary (countingOcsp _) encodeOcsp "raw" "id"
           (@ServiceOcsp.constructor _ (countingOcsp _) 0%nat) _ eq_refl eq_refl).
Defined.

Lemma unverifiable_is_not_marked_witness :
  @verifyMessageSignature plainLibrary inTime "raw" "id" =
  Fulfilled {| mailId := "id"; success := false; code := CANNOT_VERIFY;
               message := msg_notSigned; signer := JStr "" |} /\
  markResult extensionURL "https://mail.google.com/mail/u/0/"
    {| mailId := "id"; success := false; code := CANNOT_VERIFY;
       message := msg_notSigned; signer := JStr "" |} = [].
Proof.
  split; [reflexivity |].
  exact (proj2 (@unverifiable_is_not_marked plainLibrary inTime extensionURL "raw" "id"
                  "https://mail.google.com/mail/u/0/" _ eq_refl) eq_refl).
Defined.

Lemma what_a_mark_shows_witness :
  In (InsertSpan "smime-sender-inbox" (JStr alice))
     (markResult extensionURL "https://inbox.google.com/u/0"
        {| mailId := "id"; success := true; code := VERIFICATION_OK;
           message := msg_valid; signer := JStr alice |}) /\
  exists a mailbox,
    JStr alice = JStr a /\
    firstFromMailbox aliceMessage = Some mailbox /\ mb_address mailbox = Some a.
Proof.
  assert (Hin : In (InsertSpan "smime-sender-inbox" (JStr alice))
                   (markResult extensionURL "https://inbox.google.com/u/0"
                      {| mailId := "id"; success := true; code := VERIFICATION_OK;
                         message := msg_valid; signer := JStr alice |}))
    by (left; reflexivity).
  split; [exact Hin |].
  destruct (@what_a_mark_shows (aliceLibrary (JBool true)) inTime extensionURL "raw" "id"
              "https://inbox.google.com/u/0" _ _ eq_refl Hin)
    as [(Hcode & _) | (_ & Htext & _)]; [discriminate Hcode |].
  exact (Htext _ eq_refl).
Defined.
End MoreRuns.

Section NonceRun.
Import Fixtures.

Lemma nonceGenerator_shape_witness :
  (forall g0 : nat, (fst (@Math_random_index _ (countingOcsp (aliceLibrary (JBool true))) g0) < 62)%nat) /\
  List.length (fst (@ServiceOcsp.nonceGenerator _ (countingOcsp (aliceLibrary (JBool true)))
                      32 0%nat)) = 32%nat.
Proof.
  assert (Hrange : forall g0 : nat,
             (fst (@Math_random_index _ (countingOcsp (aliceLibrary (JBool true))) g0) < 62)%nat)
    by (intros g0; change (Nat.modulo g0 62 < 62)%nat; apply Nat.mod_upper_bound; lia).
  split; [exact Hrange |].
  exact (proj2 (proj2 (proj2
           (@nonceGenerator_shape _ (countingOcsp (aliceLibrary (JBool true))) 32 0%nat)))
           Hrange).
Defined.
End NonceRun.

(** ** The two revisions side by side *)

Section Revisions.
Context {lib : Libraries} {amb : Ambient} {olib : OcspLibraries}.
Variable OCSPRequest_toBER : OcspRequest -> Exc ArrayBuffer.

Lemma tryDecode_throws_without_decoding signatureNode :
  (forall sn signedData,
     signatureNode = Some sn ->
     ~ (exists bytes c,
          content sn = Some bytes /\ fst (fromBER bytes) <> -1 /\
          ContentInfo_content (snd (fromBER bytes)) = Ret c /\
          SignedData_new c = Ret signedData)) ->
  (exists e, tryDecode signatureNode = Throw e) /\
  (forall w, exists e w',
     ServiceOcsp.tryBlock OCSPRequest_toBER signatureNode w = (Throw e, w')).
Proof.
  intros Hno. unfold tryDecode, ServiceOcsp.tryBlock.
  destruct signatureNode as [sn|]; [| cbn; eauto].
  destruct (signatureBuffer <- utilConcatBuf [] (content sn) ;;
            asn1 <- getAsn1TypeFromBuffer signatureBuffer ;;
            getSignedDataFromAsn1 asn1) as [cms|e] eqn:Hdecode.
  - exfalso. apply (Hno sn cms eq_refl). now apply decode_Ret_iff.
  - split; [| eauto].
    unfold exc_bind in Hdecode |- *.
    destruct (utilConcatBuf [] (content sn)) as [buffer|]; [| eauto].
    destruct (getAsn1TypeFromBuffer buffer) as [asn1|]; [| eauto].
    rewrite Hdecode. eauto.
Qed.

(** X20.  The two revisions of [verifyMessageSignature] settle alike on
    every message that is turned down before a certificate is looked at:
    when the envelope check does not answer true, and when the signature
    part does not decode to a SignedData. *)
Theorem revisions_agree_before_certificates rawMessage mailId w :
  let parser := MimeParser_run rawMessage in
  isValidSmimeEmail (node parser) (getNode parser "2") <> Ret true \/
  (forall signedData, ~ DecodesTo parser signedData) ->
  fst (ServiceOcsp.verifyMessageSignature OCSPRequest_toBER rawMessage mailId w) =
  verifyMessageSignature rawMessage mailId.
Proof.
  intros parser Hearly.
  unfold ServiceOcsp.verifyMessageSignature, verifyMessageSignature; cbv zeta.
  fold parser.
  destruct (isValidSmimeEmail (node parser) (getNode parser "2")) as [[|]|];
    [| reflexivity | reflexivity].
  destruct Hearly as [Hne | Hno]; [now contradict Hne |].
  destruct (tryDecode_throws_without_decoding (getNode parser "2")) as ((e & ->) & Htry).
  - intros sn signedData Hnode (bytes & c & H). apply (Hno signedData).
    exists sn, bytes, c. auto.
  - destruct (Htry w) as (e' & w' & ->). reflexivity.
Qed.
End Revisions.

Section SuccessAndCode.
Context {lib : Libraries} {amb : Ambient}.

(** X21.  In every result the promise is fulfilled with, [success] is true
    exactly when the code is VERIFICATION_OK, and that exactly when the
    message is the one of a valid signature. *)
Theorem success_iff_ok rawMessage id r :
  verifyMessageSignature rawMessage id = Fulfilled r ->
  (success r = true <-> code r = VERIFICATION_OK) /\
  (code r = VERIFICATION_OK <-> message r = msg_valid).
Proof.
  intros H.
  destruct (verify_fulfilled_cases _ _ _ H)
    as [-> | [-> | [-> | (sd & email & buffer & _ & ->)]]];
    try (cbn; repeat split; discriminate).
  destruct (settle_cases (MimeParser_run rawMessage) (set_mailId getResultPrototype id)
              email (SignedData_verify sd (verifyParams buffer)))
    as [-> | [-> | [[-> _] | [-> | ->]]]];
    cbn; repeat split; (discriminate || reflexivity).
Qed.
End SuccessAndCode.

Section LastRuns.
Import Fixtures MoreFixtures.

Lemma revisions_agree_before_certificates_witness :
  @isValidSmimeEmail (node (plainMessage "Hello")) (getNode (plainMessage "Hello") "2")
  <> Ret true /\
  fst (@ServiceOcsp.verifyMessageSignature plainLibrary (countingOcsp _) encodeOcsp
         "raw" "id" (@ServiceOcsp.constructor _ (countingOcsp _) 0%nat)) =
  @verifyMessageSignature plainLibrary inTime "raw" "id".
Proof.
  assert (Hne : @isValidSmimeEmail (node (plainMessage "Hello"))
                  (getNode (plainMessage "Hello") "2") <> Ret true)
    by (vm_compute; discriminate).
  split; [exact Hne |].
  exact (@revisions_agree_before_certificates plainLibrary inTime (countingOcsp _)
           encodeOcsp "raw" "id" _ (or_introl Hne)).
Defined.

Lemma success_iff_ok_witness :
  @verifyMessageSignature (aliceLibrary (JBool true)) inTime "raw" "id" =
  Fulfilled {| mailId := "id"; success := true; code := VERIFICATION_OK;
               message := msg_valid; signer := JStr alice |} /\
  (true = true <-> VERIFICATION_OK = VERIFICATION_OK).
Proof.
  split; [reflexivity |].
  exact (proj1 (@success_iff_ok (aliceLibrary (JBool true)) inTime "raw" "id" _ eq_refl)).
Defined.
End LastRuns.
